(** * WhatsAppNode: the multi-session gateway, embedded and verified

    A shallow embedding of the gateway script (the Express application with
    its session registry, QR timers, client event handlers, bootstrap and
    message normaliser) together with the properties its specification
    states about it.

    Conventions of the embedding:
    - the two module-level [Map]s ([clients], [qrTimers]) are [gmap]s keyed
      by the phone string; client objects live in a heap of handles, so that
      a closure holding a client that has left the registry is still
      expressible;
    - [setTimeout] puts a callback, defunctionalised as an [Action], in a
      map of pending timers; firing a timer is an explicit step;
    - every call that leaves the process ([fetch], [downloadMedia],
      [sendMessage], [initialize], [toDataURL]) takes its outcome as an
      argument, so each handler is a function of the state and of what the
      outside world answered;
    - an [async] handler is run to completion as one step;
    - [logger.log] only appends to the log sink and is left out. *)

From Stdlib Require Import ZArith QArith String Ascii List Bool Lia.
From stdpp Require Import gmap strings list fin_maps pretty.
Import ListNotations.
Local Open Scope string_scope.
Local Open Scope Z_scope.
Set Warnings "-register-all".
Set Default Proof Using "Type".

(** ** Strings *)

Module Str.

(** The character class [a-zA-Z0-9_-] of the sanitising regular expression. *)
Definition is_id_char (a : ascii) : bool :=
  let n := Z.of_N (N_of_ascii a) in
  ((97 <=? n) && (n <=? 122)) || ((65 <=? n) && (n <=? 90)) ||
  ((48 <=? n) && (n <=? 57)) || (n =? 95) || (n =? 45).

(** [s.replace(/[^a-zA-Z0-9_-]/g, '')] *)
Fixpoint clean (s : string) : string :=
  match s with
  | EmptyString => EmptyString
  | String a r => if is_id_char a then String a (clean r) else clean r
  end.

Fixpoint drop (n : nat) (s : string) : string :=
  match n, s with
  | O, _ => s
  | S k, EmptyString => EmptyString
  | S k, String _ r => drop k r
  end.

(** [s.endsWith(suffix)] *)
Definition ends_with (suffix s : string) : bool :=
  (String.length suffix <=? String.length s)%nat &&
  String.eqb (drop (String.length s - String.length suffix) s) suffix.

(** [s.replace(pat, rep)] with a string pattern: the first occurrence only. *)
Fixpoint replace_first (pat rep s : string) : string :=
  if String.prefix pat s then rep +:+ drop (String.length pat) s
  else match s with
       | EmptyString => EmptyString
       | String a r => String a (replace_first pat rep r)
       end.

(** [s.split(sep)] for a one-character separator. *)
Fixpoint split_on (sep : ascii) (s : string) : list string :=
  match s with
  | EmptyString => [EmptyString]
  | String a r =>
      if Ascii.eqb a sep then EmptyString :: split_on sep r
      else match split_on sep r with
           | [] => [String a EmptyString]
           | w :: ws => String a w :: ws
           end
  end.

(** [x || y] on strings: the empty string is falsy. *)
Definition or_else (x y : string) : string :=
  if String.eqb x "" then y else x.

(** [q] is [p] itself or lies below the directory [p]. *)
Definition under (p q : string) : bool :=
  String.eqb q p || String.prefix (p +:+ "/") q.

End Str.

(** ** JSON values *)

Inductive json : Type :=
| JUndefined
| JNull
| JBool (b : bool)
| JNum (n : Z)
| JStr (s : string)
| JArr (items : list json)
| JObj (fields : list (string * json)).

Module Js.

(** Truthiness, as [!x] tests it. *)
Definition truthy (v : json) : bool :=
  match v with
  | JUndefined | JNull => false
  | JBool b => b
  | JNum n => negb (n =? 0)
  | JStr s => negb (String.eqb s "")
  | JArr _ | JObj _ => true
  end.

(** Assigning a property: an existing key keeps its place and takes the new
    value, a new key goes last. *)
Fixpoint set_prop (k : string) (v : json) (fields : list (string * json))
  : list (string * json) :=
  match fields with
  | [] => [(k, v)]
  | (k', v') :: r =>
      if String.eqb k' k then (k', v) :: r else (k', v') :: set_prop k v r
  end.

(** An object literal [{ k1: v1, ..., kn: vn }]: properties are defined from
    left to right, computed keys included, so a later duplicate wins. *)
Definition object (props : list (string * json)) : json :=
  JObj (fold_left (fun acc kv => set_prop (fst kv) (snd kv) acc) props []).

Fixpoint assoc (k : string) (fields : list (string * json)) : option json :=
  match fields with
  | [] => None
  | (k', v) :: r => if String.eqb k' k then Some v else assoc k r
  end.

(** [o.k] (for the values a JSON body can hold). *)
Definition get (k : string) (o : json) : json :=
  match o with
  | JObj fields => default JUndefined (assoc k fields)
  | _ => JUndefined
  end.

(** [a[i]] *)
Definition at_index (i : nat) (a : json) : json :=
  match a with
  | JArr items => nth i items JUndefined
  | _ => JUndefined
  end.

(** Destructuring with a default, [{ k = d } = o]: the default replaces
    [undefined] only. *)
Definition get_default (k : string) (d : json) (o : json) : json :=
  match get k o with
  | JUndefined => d
  | v => v
  end.

(** [`${v}`]: the string a template literal makes of a value. *)
Fixpoint to_text (v : json) : string :=
  match v with
  | JUndefined => "undefined"
  | JNull => "null"
  | JBool b => if b then "true" else "false"
  | JNum n => pretty n
  | JStr s => s
  | JArr items =>
      String.concat ","
        (map (fun x => match x with
                       | JUndefined | JNull => ""
                       | _ => to_text x
                       end) items)
  | JObj _ => "[object Object]"
  end.

(** [v === 'literal'] *)
Definition is_string (literal : string) (v : json) : bool :=
  match v with
  | JStr s => String.eqb s literal
  | _ => false
  end.

End Js.

(** ** The state of the process and of the world around it *)

(** The response object a handler closure was given: the Express response of
    a request, the stand-in [{ headersSent: true }] passed by every retry, or
    the default parameter [{ headersSent: false }]. *)
Inductive Res : Type :=
| ResExpress (rid : nat)
| ResHeadersSent
| ResDefault.

(** Which function built a client, hence which listeners it carries:
    [createSession] attaches a [qr] listener and re-creates through
    [createSession]; [initializeClient] and the bootstrap loop attach none
    and retry through [initializeClient]. *)
Inductive Origin : Type := FromCreateSession | FromInitializeClient.

Record Client : Type := mkClient {
  c_phone : string;      (* the [phoneNumber] its listeners close over *)
  c_lineId : json;
  c_res : Res;
  c_origin : Origin;
  c_authInfo : bool;     (* is [client.authInfo] truthy *)
  c_destroyed : bool     (* has [client.destroy()] been called *)
}.

(** The callbacks handed to [setTimeout]. Every delayed [createSession] is
    called with [{ headersSent: true }]. *)
Inductive Action : Type :=
| ActQrTimeout (c : nat) (phone : string)
| ActCreateSession (phone lineId : json)
| ActInitializeClient (phone : string) (lineId : json).

Record Timer : Type := mkTimer { due : Z; action : Action }.

Record Response : Type := mkResponse { code : Z; body : json }.

(** What [client.sendMessage] is given: a text, or a [MessageMedia] built
    from a file, with the text as caption. *)
Inductive Content : Type :=
| Text (message : json)
| Media (contentType : json) (base64 : string) (filePath : string)
        (caption : json).

Record Outbound : Type := mkOutbound {
  o_client : nat; o_chatId : string; o_content : Content
}.

Record State : Type := mkState {
  clients : gmap string nat;       (* [clients]: phone -> client handle *)
  qrTimers : gmap string nat;      (* [qrTimers]: phone -> timeout id *)
  heap : gmap nat Client;          (* the client objects *)
  timers : gmap nat Timer;         (* pending timeouts *)
  next_id : nat;                   (* supply of handles and timeout ids *)
  now : Z;                         (* clock, in milliseconds *)
  responses : gmap nat Response;   (* what each deferred response sent *)
  dirs : gset string;              (* directories on disk *)
  files : gmap string string;      (* files on disk, base64 contents *)
  undeletable : gset string;       (* paths whose removal raises *)
  webhook_posts : list json;       (* POSTs made to /whatsappwebhook *)
  notified : list (string * json); (* NotifyAuthSuccess calls: phone, lineId *)
  outbound : list Outbound         (* calls of [client.sendMessage] *)
}.

Definition upd_clients (f : gmap string nat -> gmap string nat) (st : State) :=
  mkState (f (clients st)) (qrTimers st) (heap st) (timers st) (next_id st)
    (now st) (responses st) (dirs st) (files st) (undeletable st)
    (webhook_posts st) (notified st) (outbound st).

Definition upd_qrTimers (f : gmap string nat -> gmap string nat) (st : State) :=
  mkState (clients st) (f (qrTimers st)) (heap st) (timers st) (next_id st)
    (now st) (responses st) (dirs st) (files st) (undeletable st)
    (webhook_posts st) (notified st) (outbound st).

Definition upd_heap (f : gmap nat Client -> gmap nat Client) (st : State) :=
  mkState (clients st) (qrTimers st) (f (heap st)) (timers st) (next_id st)
    (now st) (responses st) (dirs st) (files st) (undeletable st)
    (webhook_posts st) (notified st) (outbound st).

Definition upd_timers (f : gmap nat Timer -> gmap nat Timer) (st : State) :=
  mkState (clients st) (qrTimers st) (heap st) (f (timers st)) (next_id st)
    (now st) (responses st) (dirs st) (files st) (undeletable st)
    (webhook_posts st) (notified st) (outbound st).

Definition upd_next_id (f : nat -> nat) (st : State) :=
  mkState (clients st) (qrTimers st) (heap st) (timers st) (f (next_id st))
    (now st) (responses st) (dirs st) (files st) (undeletable st)
    (webhook_posts st) (notified st) (outbound st).

Definition upd_now (f : Z -> Z) (st : State) :=
  mkState (clients st) (qrTimers st) (heap st) (timers st) (next_id st)
    (f (now st)) (responses st) (dirs st) (files st) (undeletable st)
    (webhook_posts st) (notified st) (outbound st).

Definition upd_responses (f : gmap nat Response -> gmap nat Response)
    (st : State) :=
  mkState (clients st) (qrTimers st) (heap st) (timers st) (next_id st)
    (now st) (f (responses st)) (dirs st) (files st) (undeletable st)
    (webhook_posts st) (notified st) (outbound st).

Definition upd_dirs (f : gset string -> gset string) (st : State) :=
  mkState (clients st) (qrTimers st) (heap st) (timers st) (next_id st)
    (now st) (responses st) (f (dirs st)) (files st) (undeletable st)
    (webhook_posts st) (notified st) (outbound st).

Definition upd_files (f : gmap string string -> gmap string string)
    (st : State) :=
  mkState (clients st) (qrTimers st) (heap st) (timers st) (next_id st)
    (now st) (responses st) (dirs st) (f (files st)) (undeletable st)
    (webhook_posts st) (notified st) (outbound st).

Definition upd_webhook_posts (f : list json -> list json) (st : State) :=
  mkState (clients st) (qrTimers st) (heap st) (timers st) (next_id st)
    (now st) (responses st) (dirs st) (files st) (undeletable st)
    (f (webhook_posts st)) (notified st) (outbound st).

Definition upd_notified (f : list (string * json) -> list (string * json))
    (st : State) :=
  mkState (clients st) (qrTimers st) (heap st) (timers st) (next_id st)
    (now st) (responses st) (dirs st) (files st) (undeletable st)
    (webhook_posts st) (f (notified st)) (outbound st).

Definition upd_outbound (f : list Outbound -> list Outbound) (st : State) :=
  mkState (clients st) (qrTimers st) (heap st) (timers st) (next_id st)
    (now st) (responses st) (dirs st) (files st) (undeletable st)
    (webhook_posts st) (notified st) (f (outbound st)).

(** The process right after start-up, on an empty disk. *)
Definition initial : State :=
  mkState ∅ ∅ ∅ ∅ 0%nat 0 ∅ ∅ ∅ ∅ [] [] [].

(** Unfolds the field updates of a state. *)
Ltac st_simpl :=
  cbn [clients qrTimers heap timers next_id now responses dirs files
       undeletable webhook_posts notified outbound
       upd_clients upd_qrTimers upd_heap upd_timers upd_next_id upd_now
       upd_responses upd_dirs upd_files upd_webhook_posts upd_notified
       upd_outbound fst snd due action] in *.

(** ** The logger *)

(** The [Logger] class of the logging module: a queue of entries drained by
    one worker at a time. [processQueue] is [async]: it shifts an entry,
    prints it, and is suspended while [logToFile] writes; the completion of
    that write is a step of its own, after which the loop goes on. Clock
    readings and the outcome of file operations are arguments. *)
Module Logger.

(** The colours [printToConsole] picks with [chalk]. *)
Inductive Colour : Type := Yellow | Cyan | Red | Magenta | Green | Blue.

(** The [switch] of [printToConsole] over the values of [LogLevels]; any
    other level is printed plain. *)
Definition colour_of (level : string) : option Colour :=
  if String.eqb level "WARNING" then Some Yellow
  else if String.eqb level "IMPORTANT" then Some Cyan
  else if String.eqb level "ERROR" then Some Red
  else if String.eqb level "DEBUG" then Some Magenta
  else if String.eqb level "SUCCESS" then Some Green
  else if String.eqb level "INFO" then Some Blue
  else None.

(** An element of [logQueue]: [{ timestamp, level, message }]. *)
Record Entry : Type := mkEntry {
  e_timestamp : string;
  e_level : string;
  e_message : string
}.

(** A call of [printToConsole(level, text)], marked by where it was made:
    in the loop of [processQueue], for an entry of the queue, or directly,
    for a notice. *)
Inductive Line : Type :=
| FromQueue (level text : string)
| Notice (level text : string).

Record State : Type := mkState {
  logQueue : list Entry;
  isProcessing : bool;
  writing : option Entry;            (* the entry whose [logToFile] is awaited *)
  console : list Line;
  disk : gmap string (list string)   (* log files, as the lines appended *)
}.

Definition is_line_end (a : ascii) : bool :=
  Ascii.eqb a "010" || Ascii.eqb a "013".

(** The rest of [s] from its first line end on. *)
Fixpoint from_line_end (s : string) : string :=
  match s with
  | EmptyString => EmptyString
  | String a r => if is_line_end a then s else from_line_end r
  end.

(** [s.replace(/\..+/, '')]: the first dot that is followed by a character
    other than a line end is removed, together with the rest of its line.
    (Line ends are LF and CR; the strings are byte strings.) *)
Fixpoint strip_fraction (s : string) : string :=
  match s with
  | EmptyString => EmptyString
  | String a r =>
      if Ascii.eqb a "."
      then match r with
           | EmptyString => s
           | String b _ =>
               if is_line_end b then String a (strip_fraction r)
               else from_line_end r
           end
      else String a (strip_fraction r)
  end.

(** [iso.replace('T', ' ').replace(/\..+/, '')], for [iso] the value of
    [new Date().toISOString()]. *)
Definition timestamp_of (iso : string) : string :=
  strip_fraction (Str.replace_first "T" " " iso).

(** [`[${timestamp}] [${level}] ${message} (Source: ${source})`] *)
Definition logEntry (timestamp level message source : string) : string :=
  "[" +:+ timestamp +:+ "] [" +:+ level +:+ "] " +:+ message +:+
  " (Source: " +:+ source +:+ ")".

Definition printToConsole (l : Line) (st : State) : State :=
  mkState (logQueue st) (isProcessing st) (writing st)
    (console st ++ [l])%list (disk st).

(** What the file operations of one [logToFile] did. *)
Inductive Io : Type :=
| IoOk
| IoCreateFails (message : string)
| IoAppendFails (message : string).

Section WithEnvironment.

(** [path.join(__dirname, process.env.LOG_DIR)] *)
Variable logDirectory : string.

(** [new Date(timestamp).toISOString().split('T')[0]]: the UTC date of a
    timestamp, [None] when the date is invalid and [toISOString] raises. *)
Variable date_of : string -> option string.

Definition getLogFilePath (timestamp : string) : option string :=
  (fun date => logDirectory +:+ "/" +:+ date +:+ ".log") <$> date_of timestamp.

Definition write_failed (stamp message : string) : Line :=
  Notice "ERROR" ("[" +:+ stamp +:+ "] [Error] Failed to write to file: " +:+
                  message).

Definition file_created (stamp filePath : string) : Line :=
  Notice "INFO" ("[" +:+ stamp +:+ "] [Info] Створено новий файл логів: " +:+
                 filePath).

Definition set_disk (d : gmap string (list string)) (st : State) : State :=
  mkState (logQueue st) (isProcessing st) (writing st) (console st) d.

(** [logToFile(timestamp, level, message)], run to its end; [stamp] is the
    clock reading used in the notices. Every raise ends in the outer
    [catch], which prints and returns. *)
Definition logToFile (e : Entry) (io : Io) (stamp : string) (st : State)
  : State :=
  match getLogFilePath (e_timestamp e) with
  | None => printToConsole (write_failed stamp "Invalid time value") st
  | Some filePath =>
      let append st :=
        match io with
        | IoAppendFails message =>
            printToConsole (write_failed stamp message) st
        | _ => set_disk (alter (fun lines => lines ++ [e_message e])%list
                           filePath (disk st)) st
        end in
      match disk st !! filePath, io with
      | Some _, _ => append st
      | None, IoCreateFails message =>
          printToConsole (write_failed stamp message) st
      | None, _ =>
          append (printToConsole (file_created stamp filePath)
                    (set_disk (<[filePath := []]> (disk st)) st))
      end
  end.

(** The head of the [while] loop of [processQueue]: with an empty queue the
    worker ends; otherwise it shifts an entry, prints it and is suspended
    on its write. *)
Definition loop (st : State) : State :=
  match logQueue st with
  | [] => mkState [] false None (console st) (disk st)
  | e :: rest =>
      mkState rest true (Some e)
        (console st ++ [FromQueue (e_level e) (e_message e)])%list (disk st)
  end.

(** [processQueue()], up to its first suspension. *)
Definition processQueue (st : State) : State :=
  if isProcessing st then st
  else loop (mkState (logQueue st) true (writing st) (console st) (disk st)).

(** [log(message, level, source)]; [iso] is [new Date().toISOString()]. *)
Definition log (iso message level source : string) (st : State) : State :=
  let timestamp := timestamp_of iso in
  let entry := mkEntry timestamp level
                 (logEntry timestamp level message source) in
  processQueue (mkState (logQueue st ++ [entry])%list (isProcessing st)
                  (writing st) (console st) (disk st)).

(** The awaited [logToFile] completes and the loop resumes. *)
Definition file_done (io : Io) (stamp : string) (st : State) : State :=
  match writing st with
  | None => st
  | Some e =>
      let st := logToFile e io stamp st in
      loop (mkState (logQueue st) (isProcessing st) None (console st)
              (disk st))
  end.

(** [ensureLogDirectory()] completes; a failed [mkdir] is printed. *)
Definition ensureLogDirectory (failure : option string) (stamp : string)
    (st : State) : State :=
  match failure with
  | None => st
  | Some message =>
      printToConsole
        (Notice "ERROR" ("[" +:+ stamp +:+
                         "] [Error] Не вдалося створити теку логів: " +:+
                         message)) st
  end.

(** [ensureTodayLogFile()] completes; [today] is the UTC date of the clock. *)
Definition ensureTodayLogFile (today : string) (failure : option string)
    (stamp : string) (st : State) : State :=
  let todayFilePath := logDirectory +:+ "/" +:+ today +:+ ".log" in
  match disk st !! todayFilePath with
  | Some _ => st
  | None =>
      match failure with
      | None => printToConsole (file_created stamp todayFilePath)
                  (set_disk (<[todayFilePath := []]> (disk st)) st)
      | Some message =>
          printToConsole
            (Notice "ERROR" ("[" +:+ stamp +:+
                             "] [Error] Не вдалося створити файл логів: " +:+
                             message)) st
      end
  end.

(** The synchronous part of the constructor, on a given disk: the queue is
    empty, [processQueue()] finds nothing, and the first entry is logged.
    The two [ensure...] calls complete later, as steps. *)
Definition create (iso : string) (d : gmap string (list string)) : State :=
  log iso "Logger initialized" "INFO" "Logger"
    (processQueue (mkState [] false None [] d)).

(** What can happen to a logger once it is built. *)
Inductive Op : Type :=
| Log (iso message level source : string)
| FileDone (io : Io) (stamp : string)
| DirectoryEnsured (failure : option string) (stamp : string)
| TodayFileEnsured (today : string) (failure : option string)
    (stamp : string).

Definition step (op : Op) (st : State) : State :=
  match op with
  | Log iso message level source => log iso message level source st
  | FileDone io stamp => file_done io stamp st
  | DirectoryEnsured failure stamp => ensureLogDirectory failure stamp st
  | TodayFileEnsured today failure stamp =>
      ensureTodayLogFile today failure stamp st
  end.

Definition run (ops : list Op) (st : State) : State :=
  fold_left (fun st op => step op st) ops st.

End WithEnvironment.

(** The level and text of the entries the loop has printed, in order. *)
Fixpoint printed (c : list Line) : list (string * string) :=
  match c with
  | [] => []
  | FromQueue level text :: r => (level, text) :: printed r
  | Notice _ _ :: r => printed r
  end.

Definition shown (e : Entry) : string * string := (e_level e, e_message e).

(** The entries a run of operations logs, in order. *)
Fixpoint logged (ops : list Op) : list (string * string) :=
  match ops with
  | [] => []
  | Log iso message level source :: r =>
      (level, logEntry (timestamp_of iso) level message source) :: logged r
  | _ :: r => logged r
  end.

(** The worker is busy exactly while a write is awaited, and an idle
    logger has an empty queue. *)
Definition consistent (st : State) : Prop :=
  (isProcessing st = true <-> is_Some (writing st)) /\
  (isProcessing st = false -> logQueue st = []).

End Logger.


(** A stand-in for the base64 decoder that counts one MiB per character, to
    reach the size limit with short sample data. *)
Definition mebibyte_per_char (s : string) : Z :=
  1024 * 1024 * Z.of_nat (String.length s).

(** ** The gateway *)

Section Gateway.

(** [__dirname], the directory of the script. *)
Variable BASE_DIR : string.

(** [Buffer.from(s, 'base64').length], the number of bytes a base64 text
    decodes to. *)
Variable base64_length : string -> Z.

Definition AUTH_DIR : string := BASE_DIR +:+ "/.wwebjs_auth".
Definition CACHE_DIR : string := BASE_DIR +:+ "/.wwebjs_cache".

(** *** Timers *)

Definition setTimeout (a : Action) (delay : Z) (st : State) : State * nat :=
  let id := next_id st in
  (upd_next_id S (upd_timers (insert id (mkTimer (now st + delay) a)) st), id).

Definition clearTimeout (id : nat) (st : State) : State :=
  upd_timers (delete id) st.

Definition clearQrTimer (phoneNumber : string) (st : State) : State :=
  match qrTimers st !! phoneNumber with
  | Some id => upd_qrTimers (delete phoneNumber) (clearTimeout id st)
  | None => st
  end.

(** *** Paths and the disk *)

Definition getSessionPath (phoneNumber : string) : string :=
  AUTH_DIR +:+ "/session-" +:+ Str.clean phoneNumber.

Definition getCachePath (phoneNumber : string) : string :=
  CACHE_DIR +:+ "/cache-" +:+ Str.clean phoneNumber.

(** [fs.existsSync] *)
Definition existsSync (p : string) (st : State) : bool :=
  bool_decide (p ∈ dirs st) || bool_decide (is_Some (files st !! p)).

(** [fs.removeSync]: removes [p] and all below it; [None] when it raises. *)
Definition removeSync (p : string) (st : State) : option State :=
  if bool_decide (p ∈ undeletable st) then None
  else Some (upd_files (filter (fun kv => Str.under p (fst kv) = false))
            (upd_dirs (filter (fun q => Str.under p q = false)) st)).

(** [if (fs.existsSync(p)) { try { fs.removeSync(p) } catch { log } }] *)
Definition remove_if_exists (p : string) (st : State) : State :=
  if existsSync p st then default st (removeSync p st) else st.

(** Nothing is left to remove at [p]: it is absent, or it resists removal. *)
Definition settled (p : string) (st : State) : Prop :=
  existsSync p st = false \/ p ∈ undeletable st.

(** *** Responses *)

Definition headersSent (r : Res) (st : State) : bool :=
  match r with
  | ResExpress rid => bool_decide (is_Some (responses st !! rid))
  | ResHeadersSent => true
  | ResDefault => false
  end.

(** [res.status(code).json(body)]: raises on the plain stand-in objects,
    which have no such methods, and on a response already sent. *)
Definition res_json (r : Res) (resp : Response) (st : State) : option State :=
  match r with
  | ResExpress rid =>
      match responses st !! rid with
      | None => Some (upd_responses (insert rid resp) st)
      | Some _ => None
      end
  | ResHeadersSent | ResDefault => None
  end.

(** *** Creating sessions *)

(** [new Client(...)] with its listeners, then [clients.set(phoneNumber, client)]. *)
Definition register_client (phoneNumber : string) (lineId : json) (r : Res)
    (o : Origin) (st : State) : State :=
  let c := next_id st in
  upd_clients (insert phoneNumber c)
    (upd_next_id S
      (upd_heap (insert c (mkClient phoneNumber lineId r o false false)) st)).

(** [createSession]: [phoneNumber.replace] raises on anything but a string,
    and the surrounding [try] swallows it. *)
Definition createSession (phoneNumber lineId : json) (r : Res) (st : State)
  : State :=
  match phoneNumber with
  | JStr p => register_client p lineId r FromCreateSession st
  | _ => st
  end.

Definition initializeClient (phoneNumber : string) (lineId : json)
    (st : State) : State :=
  let cleanedClientId := Str.clean phoneNumber in
  if existsSync (getSessionPath cleanedClientId) st
  then register_client phoneNumber lineId ResDefault FromInitializeClient st
  else st.

(** *** Timer callbacks *)

(** [client.destroy()] *)
Definition destroy (c : nat) (st : State) : State :=
  upd_heap (alter (fun cl => mkClient (c_phone cl) (c_lineId cl) (c_res cl)
                               (c_origin cl) (c_authInfo cl) true) c) st.

(** The callback [handleQrEvent] hands to [setTimeout]. *)
Definition qr_timeout (c : nat) (phoneNumber : string) (st : State) : State :=
  match heap st !! c with
  | Some cl =>
      if c_authInfo cl then st
      else
        let st := destroy c st in
        let st := upd_clients (delete phoneNumber) st in
        let st := clearQrTimer phoneNumber st in
        fst (setTimeout (ActCreateSession (JStr phoneNumber) JNull) 30000 st)
  | None => st
  end.

Definition run_action (a : Action) (st : State) : State :=
  match a with
  | ActQrTimeout c p => qr_timeout c p st
  | ActCreateSession p l => createSession p l ResHeadersSent st
  | ActInitializeClient p l => initializeClient p l st
  end.

(** The runtime fires a pending timeout once its time has come. *)
Definition fire (id : nat) (st : State) : State :=
  match timers st !! id with
  | Some t => run_action (action t)
                (upd_now (Z.max (due t)) (upd_timers (delete id) st))
  | None => st
  end.

(** *** Listeners of a client *)

(** What the backend answered to the NotifyAuthSuccess call. *)
Inductive NotifyOutcome : Type :=
| NotifyRejected | NotifyNotOk | NotifyBadJson | NotifyOk.

Definition is_express (r : Res) : bool :=
  match r with ResExpress _ => true | _ => false end.

(** [handleQrEvent(client, phoneNumber, res)], run on a QR challenge;
    [dataUrl] is what [qrcode.toDataURL] resolved to, if it did. A raise in
    the [try] leaves before the timer is set. *)
Definition handleQrEvent (c : nat) (phoneNumber : string) (r : Res)
    (dataUrl : option string) (st : State) : State :=
  match dataUrl with
  | None => st
  | Some qrImage =>
      match res_json r (mkResponse 200 (Js.object
              [("status", JStr "qr"); ("qr", JStr qrImage);
               ("phone", JStr phoneNumber)])) st with
      | None => st
      | Some st =>
          let (st, id) := setTimeout (ActQrTimeout c phoneNumber) 30000 st in
          upd_qrTimers (insert phoneNumber id) st
      end
  end.

(** [handleReadyEvent(phoneNumber, lineId, res)]; its callers pass the
    sanitised identifier as [phoneNumber]. *)
Definition handleReadyEvent (phoneNumber : string) (lineId : json) (r : Res)
    (n : NotifyOutcome) (st : State) : State :=
  let st := clearQrTimer phoneNumber st in
  let st := upd_notified
      (fun l => (l ++ [(phoneNumber,
                         if Js.truthy lineId then lineId else JStr "")])%list)
      st in
  match n with
  | NotifyRejected | NotifyBadJson => st
  | NotifyNotOk | NotifyOk =>
      if negb (headersSent r st) && is_express r then
        match res_json r (mkResponse 200 (Js.object
                [("status", JStr "success");
                 ("message", JStr "Автентифікація успішна");
                 ("phone", JStr phoneNumber); ("lineId", lineId)])) st with
        | Some st => clearQrTimer phoneNumber st
        | None => st
        end
      else clearQrTimer phoneNumber st
  end.

Definition handleAuthenticatedEvent (phoneNumber : string) (st : State)
  : State :=
  clearQrTimer phoneNumber st.

(** [handleAuthFailureEvent(phoneNumber, res)]: with the default [res] the
    call [res.status(401)] raises and the listener ends there. *)
Definition handleAuthFailureEvent (phoneNumber : string) (r : Res)
    (st : State) : State :=
  let answered :=
    if headersSent r st then Some st
    else res_json r (mkResponse 401 (Js.object
           [("status", JStr "error");
            ("message", JStr "Помилка авторизації")])) st in
  match answered with
  | None => st
  | Some st =>
      let st := upd_clients (delete phoneNumber) st in
      let st := clearQrTimer phoneNumber st in
      fst (setTimeout (ActCreateSession (JStr phoneNumber) JNull) 30000 st)
  end.

Definition handleDisconnectedEvent (phoneNumber : string) (st : State)
  : State :=
  let st := upd_clients (delete phoneNumber) st in
  let st := clearQrTimer phoneNumber st in
  fst (setTimeout (ActInitializeClient phoneNumber JNull) 30000 st).

(** The [catch] attached to [client.initialize()]. *)
Definition initialize_rejected (cl : Client) (st : State) : State :=
  let st := upd_clients (delete (c_phone cl)) st in
  fst (setTimeout
         match c_origin cl with
         | FromCreateSession => ActCreateSession (JStr (c_phone cl)) (c_lineId cl)
         | FromInitializeClient => ActInitializeClient (c_phone cl) (c_lineId cl)
         end 30000 st).

(** *** Inbound messages *)

Record Message : Type := mkMessage {
  m_from : string;
  m_to : string;
  m_id : string;         (* [message.id.id] *)
  m_remote : string;     (* [message.id.remote] *)
  m_timestamp : Z;
  m_type : string;
  m_body : string;
  m_filename : string;   (* empty when absent *)
  m_caption : string;    (* empty when absent *)
  m_reaction : string
}.

Record MessageMedia : Type := mkMedia {
  media_data : string;       (* base64 *)
  media_mimetype : string    (* empty when absent *)
}.

(** What [message.downloadMedia()] did. *)
Inductive Download : Type :=
| Downloaded (media : MessageMedia)
| NoMedia
| DownloadRejected.

Definition is_text_type (t : string) : bool :=
  String.eqb t "chat" || String.eqb t "text".

Definition is_media_type (t : string) : bool :=
  String.eqb t "image" || String.eqb t "video" || String.eqb t "audio" ||
  String.eqb t "document" || String.eqb t "sticker".

(** Both ends of the message are individual chats. *)
Definition individual_chat (m : Message) : bool :=
  Str.ends_with "@c.us" (m_from m) && Str.ends_with "@c.us" (m_to m).

(** The message was sent by the session's own number. *)
Definition outgoing (m : Message) (phoneNumber : string) : bool :=
  String.eqb (m_from m) (phoneNumber +:+ "@c.us").

Definition oversized_notice : string :=
  "занадто великий файл. не вдалося відправити".

Definition default_mime (type : string) : string :=
  type +:+ "/" +:+
  (if String.eqb type "sticker" then "webp"
   else if String.eqb type "audio" then "ogg"
   else if String.eqb type "video" then "mp4"
   else "jpg").

(** [fileSizeInBytes / (1024 * 1024)]; dividing by a power of two is exact on
    doubles, so the quotient is the rational one. *)
Definition fileSizeInMB (fileSizeInBytes : Z) : Q :=
  (inject_Z fileSizeInBytes / inject_Z (1024 * 1024))%Q.

Definition too_large (fileSizeInBytes : Z) : bool :=
  negb (Qle_bool (fileSizeInMB fileSizeInBytes) (inject_Z 16)).

(** The [case 'image': ... case 'sticker':] arm of the switch: the text, the
    media object and the disk afterwards; [None] when the download raises. *)
Definition media_arm (m : Message) (phoneNumber : string) (dl : Download)
    (st : State) : option (string * json * State) :=
  let type := m_type m in
  let messageText := Str.or_else (m_body m) type in
  match dl with
  | DownloadRejected => None
  | NoMedia => Some (type +:+ " (не вдалося завантажити)", JNull, st)
  | Downloaded media =>
      let sessionFolder := "whatsapp_" +:+ Str.clean phoneNumber in
      let filesDirectory := BASE_DIR +:+ "/" +:+ sessionFolder +:+ "/files" in
      let st :=
        if existsSync filesDirectory st then st
        else upd_dirs (fun d => {[filesDirectory]} ∪
                                ({[BASE_DIR +:+ "/" +:+ sessionFolder]} ∪ d)) st in
      let fileSizeInBytes := base64_length (media_data media) in
      if too_large fileSizeInBytes then Some (oversized_notice, JNull, st)
      else
        let mimeType :=
          Str.or_else (media_mimetype media) (default_mime type) in
        let filename :=
          Str.or_else (m_filename m)
            (type +:+ "_" +:+ m_id m +:+ "." +:+
             Str.or_else (nth 1 (Str.split_on "/" mimeType) "") "unknown") in
        let filePath := filesDirectory +:+ "/" +:+ filename in
        let st := upd_files (insert filePath (media_data media)) st in
        Some (messageText,
              Js.object [("id", JStr (m_id m)); ("mimeType", JStr mimeType);
                         ("caption", JStr (m_caption m));
                         ("filename", JStr filePath)],
              st)
  end.

(** The object handed to [JSON.stringify] for the webhook. The last property
    of the message has the computed key [[type]]. *)
Definition payload (m : Message) (phoneNumber : string) (messageText : string)
    (mediaData : json) : json :=
  Js.object [("entry", JArr [Js.object [("changes", JArr [Js.object
    [("value", Js.object
       [("messages", JArr [Js.object
          [("id", JStr (m_id m));
           ("from", JStr (Str.replace_first "@c.us" "" (m_from m)));
           ("timestamp", JNum (m_timestamp m));
           ("type", JStr (m_type m));
           ("text", Js.object [("body", JStr messageText)]);
           (m_type m, mediaData)]]);
        ("metadata", Js.object [("phone_number_id", JStr phoneNumber)])])]])]])].

(** [handleMessageEvent(message, phoneNumber)]. Whatever the webhook
    answers, the handler only logs it, so one POST is recorded and no
    outcome is taken. *)
Definition handleMessageEvent (m : Message) (phoneNumber : string)
    (dl : Download) (st : State) : State :=
  if negb (individual_chat m) then st
  else if outgoing m phoneNumber then st
  else
    let type := m_type m in
    let normalised :=
      if is_text_type type then Some (m_body m, JNull, st)
      else if is_media_type type then media_arm m phoneNumber dl st
      else if String.eqb type "reaction" then
        Some ("Реакція: " +:+ m_reaction m +:+ " на повідомлення " +:+
              m_remote m, JNull, st)
      else Some ("Невідомий тип: " +:+ type, JNull, st) in
    match normalised with
    | None => st
    | Some (messageText, mediaData, st) =>
        upd_webhook_posts
          (fun l => (l ++ [payload m phoneNumber messageText mediaData])%list)
          st
    end.

(** An event a client emits, with what the outside world answered to the
    calls its listener makes. *)
Inductive ClientEvent : Type :=
| EvQr (dataUrl : option string)
| EvReady (n : NotifyOutcome)
| EvAuthenticated
| EvAuthFailure
| EvDisconnected
| EvMessage (m : Message) (dl : Download)
| EvInitializeRejected.

(** Dispatch to the listeners attached when the client was built. *)
Definition emit (c : nat) (ev : ClientEvent) (st : State) : State :=
  match heap st !! c with
  | None => st
  | Some cl =>
      let p := c_phone cl in
      match ev with
      | EvQr dataUrl =>
          match c_origin cl with
          | FromCreateSession => handleQrEvent c p (c_res cl) dataUrl st
          | FromInitializeClient => st
          end
      | EvReady n => handleReadyEvent (Str.clean p) (c_lineId cl) (c_res cl) n st
      | EvAuthenticated => handleAuthenticatedEvent p st
      | EvAuthFailure => handleAuthFailureEvent p (c_res cl) st
      | EvDisconnected => handleDisconnectedEvent p st
      | EvMessage m dl => handleMessageEvent m p dl st
      | EvInitializeRejected => initialize_rejected cl st
      end
  end.

(** *** Bootstrap *)

(** What one [fetch] of the RegisteredPhones endpoint resolved to;
    [reply_json] is [None] when [response.json()] raises. *)
Record HttpReply : Type := mkReply {
  reply_ok : bool;
  reply_status : Z;
  reply_json : option json
}.

(** The body of the [try] in one round of the loop: the value returned, or
    [None] when something in it raises ([fetch] itself rejecting is a [None]
    argument). *)
Definition attempt_body (reply : option HttpReply) : option (list json) :=
  match reply with
  | None => None
  | Some r =>
      if negb (reply_ok r) || (reply_status r =? 204) then None
      else match reply_json r with
           | None => None
           | Some (JArr (x :: data)) => Some (x :: data)
           | Some _ => Some []
           end
  end.

Record FetchRun : Type := mkRun {
  run_result : list json;   (* the list returned *)
  run_fetches : nat;        (* how many times [fetch] was called *)
  run_delays : list Z       (* the delays awaited, in order *)
}.

(** The [for] loop, from round [attempt] on; [world k] is what the [k]-th
    fetch does. [None] only when the fuel runs out. *)
Fixpoint fetch_loop (world : nat -> option HttpReply) (maxRetries : nat)
    (retryDelay : Z) (fuel attempt fetches : nat) (delays : list Z)
  : option FetchRun :=
  match fuel with
  | O => None
  | S fuel =>
      if (attempt <=? maxRetries)%nat then
        match attempt_body (world attempt) with
        | Some data => Some (mkRun data (S fetches) delays)
        | None =>
            if (attempt =? maxRetries)%nat
            then Some (mkRun [] (S fetches) delays)
            else fetch_loop world maxRetries retryDelay fuel (S attempt)
                   (S fetches) (delays ++ [retryDelay])%list
        end
      else Some (mkRun [] fetches delays)
  end.

Definition fetchRegisteredPhones (world : nat -> option HttpReply)
    (maxRetries : nat) (retryDelay : Z) : option FetchRun :=
  fetch_loop world maxRetries retryDelay (S maxRetries) 1 0 [].

(** The [for ... of registeredPhones] loop; [init_ok p] tells whether
    [client.initialize()] resolves for phone [p]. An entry without a string
    [phoneNumber] raises, which ends the loop in the outer [catch]. *)
Fixpoint bootstrap_loop (registeredPhones : list json)
    (init_ok : string -> bool) (st : State) : State :=
  match registeredPhones with
  | [] => st
  | entry :: rest =>
      match Js.get "phoneNumber" entry with
      | JStr phoneNumber =>
          let lineId := Js.get "lineId" entry in
          let cleanedClientId := Str.clean phoneNumber in
          let st :=
            if existsSync (getSessionPath cleanedClientId) st then
              let st := register_client phoneNumber lineId ResDefault
                          FromInitializeClient st in
              if init_ok phoneNumber then st
              else initialize_rejected
                     (mkClient phoneNumber lineId ResDefault
                        FromInitializeClient false false) st
            else st in
          bootstrap_loop rest init_ok st
      | _ => st
      end
  end.

(** [initializeRegisteredSessions], called with the default arguments of
    [fetchRegisteredPhones]; the awaited delays move the clock. *)
Definition initializeRegisteredSessions (world : nat -> option HttpReply)
    (init_ok : string -> bool) (st : State) : State :=
  match fetchRegisteredPhones world 5 30000 with
  | None => st
  | Some run =>
      let st := upd_now (fun t => t + fold_right Z.add 0 (run_delays run)) st in
      match run_result run with
      | [] => st
      | registeredPhones => bootstrap_loop registeredPhones init_ok st
      end
  end.

(** *** The HTTP routes *)

(** A route either answers before it returns or leaves its response object
    to the listeners of the client it created. *)
Inductive Reply : Type :=
| Replied (r : Response)
| Pending (rid : nat).

Definition internal_error : Response :=
  mkResponse 500 (Js.object [("status", JStr "error");
                             ("message", JStr "Внутрішня помилка сервера")]).

(** [POST /registerwhatsapp] *)
Definition registerwhatsapp (body : json) (st : State) : State * Reply :=
  let phone := Js.get "phone" body in
  let lineId := Js.get "lineId" body in
  if negb (Js.truthy phone) then
    (st, Replied (mkResponse 400 (Js.object
           [("status", JStr "error");
            ("message", JStr "Phone number is required")])))
  else
    match phone with
    | JStr p =>
        let sessionPath := getSessionPath p in
        if bool_decide (is_Some (clients st !! p)) || existsSync sessionPath st
        then
          (st, Replied (mkResponse 200 (Js.object
                 [("status", JStr "connected");
                  ("message", JStr "Сесія вже існує або активна");
                  ("phone", phone); ("lineId", lineId)])))
        else
          let rid := next_id st in
          (createSession phone lineId (ResExpress rid) (upd_next_id S st),
           Pending rid)
    | _ => (st, Replied internal_error)
    end.

(** [clients.get(k)]: the keys of the registry are strings. *)
Definition clients_get (k : json) (st : State) : option nat :=
  match k with
  | JStr p => clients st !! p
  | _ => None
  end.

(** What [client.sendMessage] did: rejected with a message, or resolved to a
    message whose [id.id] may be missing. *)
Inductive SendOutcome : Type :=
| SendRejected (message : string)
| SendResolved (id : option string).

Definition bad_request (message : string) : Response :=
  mkResponse 400 (Js.object [("status", JStr "error");
                             ("message", JStr message)]).

(** The tail of [/sendmsg] once the content is known. *)
Definition send_and_reply (c : nat) (chatId : string) (content : Content)
    (bitrixMessageId : json) (sent : SendOutcome) (randomHex : string)
    (st : State) : State * Response :=
  let st := upd_outbound (fun l => (l ++ [mkOutbound c chatId content])%list) st in
  match sent with
  | SendRejected message =>
      (st, mkResponse 500 (Js.object [("status", JStr "error");
                                      ("message", JStr message)]))
  | SendResolved id =>
      let messageId := Str.or_else (default "" id) randomHex in
      (st, mkResponse 200 (Js.object
             [("status", JStr "sent"); ("messageId", JStr messageId);
              ("bitrixMessageId", bitrixMessageId)]))
  end.

(** [POST /sendmsg]; [sent] is the outcome of [client.sendMessage] and
    [randomHex] the 16 hex digits drawn when the provider gives no id. *)
Definition sendmsg (body : json) (sent : SendOutcome) (randomHex : string)
    (st : State) : State * Response :=
  let from := Js.get "from" body in
  let to := Js.get "to" body in
  let message := Js.get "message" body in
  let contentType := Js.get_default "contentType" (JStr "text") body in
  let filePath := Js.get "filePath" body in
  let bitrixMessageId := Js.get "bitrixMessageId" body in
  if negb (Js.truthy from) || negb (Js.truthy to) || negb (Js.truthy message)
  then (st, bad_request "Необхідні параметри: from, to, message")
  else
    match clients_get from st with
    | None =>
        (fst (setTimeout (ActCreateSession from JNull) 30000 st),
         mkResponse 404 (Js.object [("status", JStr "error");
                                    ("message", JStr "Клієнт не підключений")]))
    | Some c =>
        let chatId := Js.to_text to +:+ "@c.us" in
        if Js.is_string "text" contentType then
          send_and_reply c chatId (Text message) bitrixMessageId sent
            randomHex st
        else if Js.truthy filePath then
          match filePath with
          | JStr path =>
              if existsSync path st then
                match files st !! path with
                | Some fileData =>
                    send_and_reply c chatId
                      (Media contentType fileData path message)
                      bitrixMessageId sent randomHex st
                | None =>
                    (st, mkResponse 500 (Js.object
                           [("status", JStr "error");
                            ("message", JStr
                               "EISDIR: illegal operation on a directory, read")]))
                end
              else (st, bad_request ("Файл не знайдено: " +:+ path))
          | _ => (st, bad_request ("Файл не знайдено: " +:+ Js.to_text filePath))
          end
        else (st, bad_request ("Непідтримуваний contentType: " +:+
                               Js.to_text contentType))
    end.

Definition status_reply (status : string) (phone : string)
    (isAuthenticated : bool) : Response :=
  mkResponse 200 (Js.object [("status", JStr status); ("phone", JStr phone);
                             ("isAuthenticated", JBool isAuthenticated)]).

(** [GET /status/:phone] *)
Definition status (param : string) (st : State) : Response :=
  let phone := Str.clean param in
  match clients st !! phone with
  | Some c =>
      if default false (c_authInfo <$> heap st !! c)
      then status_reply "connected" phone true
      else status_reply "disconnected" phone false
  | None => status_reply "disconnected" phone false
  end.

(** [DELETE /sessiondelete/:phone]; a rejected [destroy] is only logged. *)
Definition sessiondelete (param : string) (st : State) : State * Response :=
  let phone := Str.clean param in
  let st :=
    match clients st !! phone with
    | Some c => clearQrTimer phone (upd_clients (delete phone) (destroy c st))
    | None => st
    end in
  let st := remove_if_exists (getSessionPath phone) st in
  let st := remove_if_exists (getCachePath phone) st in
  (st, mkResponse 200 (Js.object
         [("status", JStr "deleted"); ("phone", JStr phone);
          ("message", JStr "Сесія успішно видалена")])).

(** *** The library's side *)

(** The gateway only ever reads [client.authInfo]; this is the library (or
    anyone holding the handle) assigning it. *)
Definition set_authInfo (c : nat) (b : bool) (st : State) : State :=
  upd_heap (alter (fun cl => mkClient (c_phone cl) (c_lineId cl) (c_res cl)
                               (c_origin cl) b (c_destroyed cl)) c) st.

(** *** Sample runs *)

(** Register [phone] on a fresh process and let its client emit the QR
    challenge. The response object is handle 0, the client handle 1 and the
    QR timeout id 2. *)
Definition awaiting_qr (phone : string) : State :=
  let req := Js.object [("phone", JStr phone); ("lineId", JStr "7")] in
  let st := fst (registerwhatsapp req initial) in
  emit 1 (EvQr (Some "data:image/png;base64,iVBORw0KGgo=")) st.

(** The pairing carried through: the client emits [authenticated] and
    [ready]; [auth] is what the library leaves in [authInfo] once
    authenticated. *)
Definition pairing_run (phone : string) (auth : bool) : State :=
  let st := set_authInfo 1 auth (awaiting_qr phone) in
  let st := emit 1 EvAuthenticated st in
  emit 1 (EvReady NotifyOk) st.

(** A fresh process that finds the credential directory of [phone]. *)
Definition with_credentials (phone : string) : State :=
  upd_dirs (fun d => {[getSessionPath phone]} ∪ d) initial.

(** An inbound message of type ['text'] from a foreign contact. *)
Definition hello_text : Message :=
  mkMessage "380501112233@c.us" "15550001111@c.us" "3EB0C767D097" 
    "380501112233@c.us" 1700000000 "text" "hello" "" "" "".

(** An inbound picture from a foreign contact, and what was downloaded
    for it. *)
Definition sample_image : Message :=
  mkMessage "380501112233@c.us" "15550001111@c.us" "3EB0A1B2C3D4"
    "380501112233@c.us" 1700000100 "image" "" "" "" "".

Definition sample_media : MessageMedia :=
  mkMedia "/9j/4AAQSkZJRgABAQ==" "image/jpeg".

(** Request bodies. *)
Definition sample_register : json :=
  Js.object [("phone", JStr "15550001111"); ("lineId", JStr "7")].

Definition sample_send : json :=
  Js.object [("from", JStr "15550001111"); ("to", JStr "380501112233");
             ("message", JStr "hello")].

Definition sample_send_no_message : json :=
  Js.object [("from", JStr "15550001111"); ("to", JStr "380501112233")].

(** *** Reading a webhook payload *)

(** [payload.entry[0].changes[0].value] *)
Definition payload_value (pl : json) : json :=
  Js.get "value" (Js.at_index 0 (Js.get "changes"
    (Js.at_index 0 (Js.get "entry" pl)))).

(** [payload.entry[0].changes[0].value.messages[0]] *)
Definition first_message (pl : json) : json :=
  Js.at_index 0 (Js.get "messages" (payload_value pl)).

(** [payload.entry[0].changes[0].value.metadata.phone_number_id] *)
Definition phone_number_id (pl : json) : json :=
  Js.get "phone_number_id" (Js.get "metadata" (payload_value pl)).

(** The reply of [/registerwhatsapp] when it finds the session in place. *)
Definition already_connected (phone lineId : json) : Response :=
  mkResponse 200 (Js.object
    [("status", JStr "connected");
     ("message", JStr "Сесія вже існує або активна");
     ("phone", phone); ("lineId", lineId)]).

Definition client_not_connected : Response :=
  mkResponse 404 (Js.object [("status", JStr "error");
                             ("message", JStr "Клієнт не підключений")]).

Definition deleted_reply (phone : string) : Response :=
  mkResponse 200 (Js.object
    [("status", JStr "deleted"); ("phone", JStr phone);
     ("message", JStr "Сесія успішно видалена")]).


(** A process that resumed the session of a phone from its credential
    directory: the client is handle 0. *)
Definition sample_resumed : State :=
  initializeClient "15550001111" (JStr "7") (with_credentials "15550001111").


(** A media send, and a state in which the file it names is on disk. *)
Definition sample_send_media : json :=
  Js.object [("from", JStr "15550001111"); ("to", JStr "380501112233");
             ("message", JStr "look"); ("contentType", JStr "image");
             ("filePath", JStr "/srv/out/cat.jpg")].

Definition with_outgoing_file (st : State) : State :=
  upd_files (insert "/srv/out/cat.jpg" "/9j/4AAQ") st.

(** A backend whose third answer lists one phone, after two refusals. *)
Definition third_time_lucky (k : nat) : option HttpReply :=
  if (k =? 3)%nat
  then Some (mkReply true 200
               (Some (JArr [Js.object [("phoneNumber", JStr "15550001111");
                                       ("lineId", JStr "7")]])))
  else Some (mkReply false 503 None).


(** * Properties *)

(** ** The building blocks on small inputs *)

Example clean_strips_plus : Str.clean "+1 (555) 000-1111" = "1555000-1111".
Proof. reflexivity. Qed.

Example ends_with_individual :
  Str.ends_with "@c.us" "380501112233@c.us" = true /\
  Str.ends_with "@c.us" "120363041234567890@g.us" = false.
Proof. split; reflexivity. Qed.

Example replace_first_once :
  Str.replace_first "@c.us" "" "380501112233@c.us" = "380501112233" /\
  Str.replace_first "@c.us" "" "a@c.us@c.us" = "a@c.us".
Proof. split; reflexivity. Qed.

Example split_mime :
  Str.split_on "/" "image/jpeg" = ["image"; "jpeg"] /\
  nth 1 (Str.split_on "/" "octet") "" = "".
Proof. split; reflexivity. Qed.

Example object_later_key_wins :
  Js.object [("text", JNum 1); ("type", JNum 2); ("text", JNull)]
  = JObj [("text", JNull); ("type", JNum 2)].
Proof. reflexivity. Qed.

Example too_large_boundary :
  too_large (16 * 1024 * 1024) = false /\
  too_large (16 * 1024 * 1024 + 1) = true.
Proof. split; reflexivity. Qed.

(** The third fetch answers with two phones: three fetches, two delays. *)
Example fetch_third_time :
  let phones := [Js.object [("phoneNumber", JStr "15550001111")];
                 Js.object [("phoneNumber", JStr "15550002222")]] in
  fetchRegisteredPhones
    (fun k => if (k =? 3)%nat
              then Some (mkReply true 200 (Some (JArr phones)))
              else Some (mkReply false 503 None))
    5 30000
  = Some (mkRun phones 3 [30000; 30000]).
Proof. reflexivity. Qed.

(** An empty answer ends the loop at once. *)
Example fetch_empty_list :
  fetchRegisteredPhones (fun _ => Some (mkReply true 200 (Some (JArr []))))
    5 30000
  = Some (mkRun [] 1 []).
Proof. reflexivity. Qed.

(** ** Registration *)

Lemma truthy_nonempty (p : string) : p ≠ "" -> Js.truthy (JStr p) = true.
Proof.
  intros Hp. simpl. apply negb_true_iff. now apply String.eqb_neq.
Qed.

Lemma registerwhatsapp_found (req : json) (p : string) (st : State) :
  Js.get "phone" req = JStr p -> p ≠ "" ->
  bool_decide (is_Some (clients st !! p)) || existsSync (getSessionPath p) st
    = true ->
  registerwhatsapp req st
  = (st, Replied (already_connected (JStr p) (Js.get "lineId" req))).
Proof.
  intros Hphone Hp Hfound. unfold registerwhatsapp.
  rewrite Hphone, (truthy_nonempty p Hp). cbn [negb].
  now rewrite Hfound.
Qed.

(** C1. A registration request for a phone that already has a session in
    the registry answers 200 "connected" with that phone, and changes
    nothing: no client is built, the registry entry stays what it was, and
    the registry still holds one session for the phone. *)
Theorem register_existing_session (req : json) (p : string) (c : nat)
    (st : State) :
  Js.get "phone" req = JStr p -> p ≠ "" ->
  clients st !! p = Some c ->
  registerwhatsapp req st
  = (st, Replied (already_connected (JStr p) (Js.get "lineId" req)))
  /\ code (already_connected (JStr p) (Js.get "lineId" req)) = 200
  /\ Js.get "status" (body (already_connected (JStr p) (Js.get "lineId" req)))
     = JStr "connected"
  /\ (forall c', clients (fst (registerwhatsapp req st)) !! p = Some c' ->
                 c' = c).
Proof.
  intros Hphone Hp Hc.
  assert (Hreg : registerwhatsapp req st
                 = (st, Replied (already_connected (JStr p)
                                   (Js.get "lineId" req)))).
  { apply registerwhatsapp_found; [done | done |].
    rewrite bool_decide_eq_true_2 by eauto. done. }
  repeat split; [done | ].
  intros c'. rewrite Hreg. cbn [fst]. congruence.
Qed.

(** C10. A registration request for a phone with no session in the registry
    but with a credential directory on disk answers 200 "connected" and
    changes nothing: no client is built and no pairing starts. *)
Theorem register_persisted_credentials (req : json) (p : string)
    (st : State) :
  Js.get "phone" req = JStr p -> p ≠ "" ->
  clients st !! p = None ->
  existsSync (getSessionPath p) st = true ->
  registerwhatsapp req st
  = (st, Replied (already_connected (JStr p) (Js.get "lineId" req)))
  /\ code (already_connected (JStr p) (Js.get "lineId" req)) = 200
  /\ Js.get "status" (body (already_connected (JStr p) (Js.get "lineId" req)))
     = JStr "connected"
  /\ clients (fst (registerwhatsapp req st)) !! p = None.
Proof.
  intros Hphone Hp Hc Hdir.
  assert (Hreg : registerwhatsapp req st
                 = (st, Replied (already_connected (JStr p)
                                   (Js.get "lineId" req)))).
  { apply registerwhatsapp_found; [done | done |].
    rewrite Hdir. apply orb_true_r. }
  repeat split; [done | ].
  now rewrite Hreg.
Qed.

(** Without session and without directory the route builds a client and
    leaves the answer to its listeners. *)
Lemma registerwhatsapp_creates (req : json) (p : string) (st : State) :
  Js.get "phone" req = JStr p -> p ≠ "" ->
  clients st !! p = None ->
  existsSync (getSessionPath p) st = false ->
  registerwhatsapp req st
  = (register_client p (Js.get "lineId" req) (ResExpress (next_id st))
       FromCreateSession (upd_next_id S st),
     Pending (next_id st)).
Proof.
  intros Hphone Hp Hc Hdir. unfold registerwhatsapp.
  rewrite Hphone, (truthy_nonempty p Hp), Hc, Hdir. cbn [negb].
  rewrite bool_decide_eq_false_2 by (intros [? ?]; discriminate).
  reflexivity.
Qed.

(** Two registrations in a row for a new phone: the first builds the
    client, the second finds it and builds nothing. *)
Lemma registerwhatsapp_twice (req : json) (p : string) (st : State) :
  Js.get "phone" req = JStr p -> p ≠ "" ->
  clients st !! p = None ->
  existsSync (getSessionPath p) st = false ->
  let st1 := fst (registerwhatsapp req st) in
  clients st1 !! p = Some (S (next_id st)) /\
  registerwhatsapp req st1
  = (st1, Replied (already_connected (JStr p) (Js.get "lineId" req))).
Proof.
  intros Hphone Hp Hc Hdir st1. subst st1.
  rewrite (registerwhatsapp_creates req p st Hphone Hp Hc Hdir).
  cbn [fst]. unfold register_client. st_simpl.
  assert (Hin : <[p:=S (next_id st)]> (clients st) !! p
                = Some (S (next_id st))) by apply lookup_insert_eq.
  split; [exact Hin |].
  apply registerwhatsapp_found; [done | done |]. st_simpl.
  rewrite bool_decide_eq_true_2 by (rewrite Hin; eauto). done.
Qed.

(** ** Status *)

(** C9. The status route answers 200 with one of two bodies: "connected"
    with [isAuthenticated: true], or "disconnected" with
    [isAuthenticated: false]; the two fields never disagree. *)
Theorem status_fields_coupled (param : string) (st : State) :
  code (status param st) = 200 /\
  ((Js.get "status" (body (status param st)) = JStr "connected" /\
    Js.get "isAuthenticated" (body (status param st)) = JBool true) \/
   (Js.get "status" (body (status param st)) = JStr "disconnected" /\
    Js.get "isAuthenticated" (body (status param st)) = JBool false)).
Proof.
  unfold status.
  destruct (clients st !! Str.clean param) as [c|]; [|split; [done | right; done]].
  destruct (default false (c_authInfo <$> heap st !! c)).
  - split; [done | left; done].
  - split; [done | right; done].
Qed.

(** ** The QR timeout *)

(** A QR challenge answered on a live Express response starts a timer due
    30 seconds later and files it under the phone. *)
Lemma handleQrEvent_starts_timer (c rid : nat) (p qrImage : string)
    (st : State) :
  responses st !! rid = None ->
  let st' := handleQrEvent c p (ResExpress rid) (Some qrImage) st in
  qrTimers st' !! p = Some (next_id st) /\
  timers st' !! next_id st
  = Some (mkTimer (now st + 30000) (ActQrTimeout c p)) /\
  Js.get "status" (body (default internal_error (responses st' !! rid)))
  = JStr "qr".
Proof.
  intros Hrid st'. subst st'. unfold handleQrEvent, res_json.
  rewrite Hrid. unfold setTimeout. st_simpl.
  now rewrite !lookup_insert_eq.
Qed.

(** C2. When the QR timeout of a session fires and its client has not been
    authenticated, the callback destroys the client handle, removes the
    phone from the registry, cancels the phone's QR timer, and schedules one
    timer, due 30 seconds later, that re-creates the session for the same
    phone; it schedules nothing else, and the fired timer is gone. *)
Theorem qr_timeout_recreates (id c : nat) (p : string) (t : Z) (cl : Client)
    (st : State) :
  timers st !! id = Some (mkTimer t (ActQrTimeout c p)) ->
  heap st !! c = Some cl ->
  c_authInfo cl = false ->
  let st' := fire id st in
  heap st' !! c = Some (mkClient (c_phone cl) (c_lineId cl) (c_res cl)
                          (c_origin cl) false true) /\
  clients st' !! p = None /\
  qrTimers st' !! p = None /\
  (forall q, qrTimers st !! p = Some q -> q ≠ next_id st ->
             timers st' !! q = None) /\
  now st' = Z.max t (now st) /\
  timers st' !! next_id st
  = Some (mkTimer (now st' + 30000) (ActCreateSession (JStr p) JNull)) /\
  (forall j T, j ≠ next_id st -> timers st' !! j = Some T ->
               timers st !! j = Some T /\ j ≠ id).
Proof.
  intros Hid Hc Hauth st'. subst st'. unfold fire. rewrite Hid.
  cbn [action due run_action]. unfold qr_timeout.
  st_simpl. rewrite Hc, Hauth.
  unfold clearQrTimer, setTimeout, destroy, clearTimeout.
  st_simpl.
  destruct (qrTimers st !! p) as [q|] eqn:Hq; st_simpl.
  - rewrite lookup_alter_eq, Hc, !lookup_delete_eq, lookup_insert_eq.
    split; [by simpl; rewrite Hauth |].
    do 2 (split; [done |]).
    split; [| split; [done | split; [done |]]].
    + intros q' [= <-] Hne. rewrite lookup_insert_ne by done.
      apply lookup_delete_eq.
    + intros j T Hj HT. rewrite lookup_insert_ne in HT by done.
      apply lookup_delete_Some in HT as [_ HT].
      split; [now apply lookup_delete_Some in HT as [_ HT] |].
      intros ->. now rewrite lookup_delete_eq in HT.
  - rewrite lookup_alter_eq, Hc, lookup_delete_eq, lookup_insert_eq, Hq.
    split; [by simpl; rewrite Hauth |].
    do 5 (split; [done |]).
    intros j T Hj HT. rewrite lookup_insert_ne in HT by done.
    split; [now apply lookup_delete_Some in HT as [_ HT] |].
    intros ->. now rewrite lookup_delete_eq in HT.
Qed.

(** An authenticated client is left alone by the timeout. *)
Lemma qr_timeout_authenticated (id c : nat) (p : string) (t : Z)
    (cl : Client) (st : State) :
  timers st !! id = Some (mkTimer t (ActQrTimeout c p)) ->
  heap st !! c = Some cl ->
  c_authInfo cl = true ->
  fire id st = upd_now (Z.max t) (upd_timers (delete id) st).
Proof.
  intros Hid Hc Hauth. unfold fire. rewrite Hid.
  cbn [action due run_action]. unfold qr_timeout. st_simpl.
  now rewrite Hc, Hauth.
Qed.

(** ** Inbound messages *)

Lemma too_large_spec (fileSizeInBytes : Z) :
  too_large fileSizeInBytes = true <-> 16 * 1024 * 1024 < fileSizeInBytes.
Proof.
  unfold too_large, fileSizeInMB. rewrite negb_true_iff.
  rewrite <- not_true_iff_false, Qle_bool_iff.
  unfold Qle, Qdiv, Qmult, Qinv, inject_Z.
  change (1024 * 1024) with 1048576. cbn. lia.
Qed.

Lemma media_type_cases (t : string) :
  is_media_type t = true ->
  t = "image" \/ t = "video" \/ t = "audio" \/ t = "document" \/ t = "sticker".
Proof.
  unfold is_media_type. rewrite !orb_true_iff, !String.eqb_eq.
  intros [[[[H | H] | H] | H] | H]; auto 6.
Qed.

Lemma media_type_not_text (t : string) :
  is_media_type t = true -> is_text_type t = false.
Proof.
  intros H. destruct (media_type_cases t H) as [-> | [-> | [-> | [-> | ->]]]];
    reflexivity.
Qed.

(** The oversized arm keeps the disk's files and attaches nothing. *)
Lemma media_arm_oversized (m : Message) (phoneNumber : string)
    (media : MessageMedia) (st : State) :
  16 * 1024 * 1024 < base64_length (media_data media) ->
  exists st', media_arm m phoneNumber (Downloaded media) st
              = Some (oversized_notice, JNull, st')
              /\ files st' = files st
              /\ webhook_posts st' = webhook_posts st.
Proof.
  intros Hbig. apply too_large_spec in Hbig. unfold media_arm.
  rewrite Hbig. eexists. split; [reflexivity |].
  now destruct (existsSync _ st).
Qed.

(** C3. An accepted media message whose decoded data exceeds 16 MiB writes
    no file, and is still posted to the webhook, once, with the oversized
    notice as text body and [null] under the key of its type. *)
Theorem oversized_media_forwarded (m : Message) (phoneNumber : string)
    (media : MessageMedia) (st : State) :
  individual_chat m = true ->
  outgoing m phoneNumber = false ->
  is_media_type (m_type m) = true ->
  16 * 1024 * 1024 < base64_length (media_data media) ->
  let st' := handleMessageEvent m phoneNumber (Downloaded media) st in
  let pl := payload m phoneNumber oversized_notice JNull in
  files st' = files st /\
  webhook_posts st' = (webhook_posts st ++ [pl])%list /\
  Js.get "body" (Js.get "text" (first_message pl)) = JStr oversized_notice /\
  Js.get (m_type m) (first_message pl) = JNull.
Proof.
  intros Hchat Hout Htype Hbig st' pl. subst st' pl.
  unfold handleMessageEvent.
  rewrite Hchat, Hout, (media_type_not_text _ Htype), Htype. cbn [negb].
  destruct (media_arm_oversized m phoneNumber media st Hbig)
    as (st1 & -> & Hfiles & Hposts).
  st_simpl. rewrite Hposts.
  do 2 (split; [done |]).
  destruct (media_type_cases _ Htype) as [Ht | [Ht | [Ht | [Ht | Ht]]]];
    unfold payload; rewrite Ht; split; reflexivity.
Qed.

(** A message of type ['chat'] is posted once, body verbatim, under the
    owning phone. *)
Lemma chat_message_forwarded (m : Message) (phoneNumber : string)
    (dl : Download) (st : State) :
  individual_chat m = true ->
  outgoing m phoneNumber = false ->
  m_type m = "chat" ->
  let pl := payload m phoneNumber (m_body m) JNull in
  webhook_posts (handleMessageEvent m phoneNumber dl st)
  = (webhook_posts st ++ [pl])%list /\
  Js.get "body" (Js.get "text" (first_message pl)) = JStr (m_body m) /\
  phone_number_id pl = JStr phoneNumber.
Proof.
  intros Hchat Hout Ht pl. subst pl. unfold handleMessageEvent.
  rewrite Hchat, Hout, Ht. cbn [negb is_text_type String.eqb orb].
  split; [reflexivity |]. unfold payload. rewrite Ht. split; reflexivity.
Qed.

(** For the type ['text'] the computed key [[type]] is ["text"] again: the
    [null] of the media field replaces the text object. *)
Lemma text_type_payload (m : Message) (phoneNumber : string) (dl : Download)
    (st : State) :
  individual_chat m = true ->
  outgoing m phoneNumber = false ->
  m_type m = "text" ->
  let pl := payload m phoneNumber (m_body m) JNull in
  webhook_posts (handleMessageEvent m phoneNumber dl st)
  = (webhook_posts st ++ [pl])%list /\
  Js.get "text" (first_message pl) = JNull /\
  Js.get "body" (Js.get "text" (first_message pl)) = JUndefined.
Proof.
  intros Hchat Hout Ht pl. subst pl. unfold handleMessageEvent.
  rewrite Hchat, Hout, Ht. cbn [negb is_text_type String.eqb orb].
  split; [reflexivity |]. unfold payload. rewrite Ht. split; reflexivity.
Qed.

(** C6. The inbound text "hello", with type ['text'], from a foreign contact:
    one POST reaches the webhook, under the owning phone, but its message has
    [text: null], so [text.body] is not "hello". *)
Theorem hello_text_body_lost :
  exists pl,
    webhook_posts (handleMessageEvent hello_text "15550001111" NoMedia initial)
    = [pl] /\
    individual_chat hello_text = true /\
    outgoing hello_text "15550001111" = false /\
    phone_number_id pl = JStr "15550001111" /\
    Js.get "text" (first_message pl) = JNull /\
    Js.get "body" (Js.get "text" (first_message pl)) ≠ JStr "hello".
Proof.
  eexists. repeat split; try reflexivity. discriminate.
Qed.

(** ** Bootstrap *)

(** From round [attempt] on, with every round failing, the loop makes the
    remaining fetches, waits between them, and returns the empty list. *)
Lemma fetch_loop_all_fail (world : nat -> option HttpReply)
    (maxRetries : nat) (retryDelay : Z) :
  (forall k, attempt_body (world k) = None) ->
  forall fuel attempt fetches delays,
    (attempt <= maxRetries)%nat ->
    (maxRetries - attempt < fuel)%nat ->
    fetch_loop world maxRetries retryDelay fuel attempt fetches delays
    = Some (mkRun [] (fetches + (maxRetries - attempt) + 1)
              (delays ++ repeat retryDelay (maxRetries - attempt))%list).
Proof.
  intros Hfail. induction fuel as [|fuel IH]; intros attempt fetches delays Hle Hfuel.
  - lia.
  - cbn [fetch_loop]. rewrite (proj2 (Nat.leb_le _ _) Hle), Hfail.
    destruct (Nat.eqb_spec attempt maxRetries) as [-> | Hne].
    + rewrite Nat.sub_diag, Nat.add_0_r, Nat.add_1_r. cbn [repeat].
      now rewrite app_nil_r.
    + rewrite IH by lia.
      replace (maxRetries - attempt)%nat with (S (maxRetries - S attempt)) by lia.
      cbn [repeat]. rewrite <- app_assoc. cbn [app]. do 2 f_equal. lia.
Qed.

(** C5. When every fetch of the registered phones fails,
    [fetchRegisteredPhones] returns (nothing escapes it), having called
    [fetch] exactly [maxRetries] times with one delay between consecutive
    calls, and its result is the empty list; start-up, which runs it with 5
    attempts, then leaves the registry, the clients, the timers and the disk
    as they were: only the clock has moved by the four delays. *)
Theorem fetchRegisteredPhones_exhausted (world : nat -> option HttpReply)
    (maxRetries : nat) (retryDelay : Z) (init_ok : string -> bool)
    (st : State) :
  (forall k, attempt_body (world k) = None) ->
  fetchRegisteredPhones world maxRetries retryDelay
  = Some (mkRun [] maxRetries (repeat retryDelay (maxRetries - 1))) /\
  initializeRegisteredSessions world init_ok st
  = upd_now (fun t => t + 4 * 30000) st.
Proof.
  intros Hfail.
  assert (Hrun : forall n d, fetchRegisteredPhones world n d
                             = Some (mkRun [] n (repeat d (n - 1)))).
  { intros n d. unfold fetchRegisteredPhones. destruct n as [|n].
    - reflexivity.
    - rewrite (fetch_loop_all_fail world (S n) d Hfail) by lia.
      cbn [app]. do 2 f_equal. lia. }
  split; [apply Hrun |].
  unfold initializeRegisteredSessions. rewrite Hrun. reflexivity.
Qed.

(** ** Sending *)

(** C7. A send request carrying [from], [to] and [message] whose [from] has
    no session in the registry is answered 404 "client not connected"; no
    message is handed to any client, the registry is untouched, and exactly
    one timer is added, due 30 seconds later, which re-creates the session
    for [from]; when that timer fires, still nothing is sent. *)
Theorem sendmsg_not_connected (req : json) (sent : SendOutcome)
    (randomHex : string) (st : State) :
  Js.truthy (Js.get "from" req) = true ->
  Js.truthy (Js.get "to" req) = true ->
  Js.truthy (Js.get "message" req) = true ->
  clients_get (Js.get "from" req) st = None ->
  let st' := fst (sendmsg req sent randomHex st) in
  snd (sendmsg req sent randomHex st) = client_not_connected /\
  code client_not_connected = 404 /\
  outbound st' = outbound st /\
  clients st' = clients st /\
  heap st' = heap st /\
  timers st'
  = <[next_id st := mkTimer (now st + 30000)
                      (ActCreateSession (Js.get "from" req) JNull)]>
      (timers st) /\
  outbound (fire (next_id st) st') = outbound st.
Proof.
  intros Hfrom Hto Hmsg Hnone st'. subst st'. unfold sendmsg.
  rewrite Hfrom, Hto, Hmsg, Hnone. cbn [negb orb]. unfold setTimeout.
  st_simpl. do 6 (split; [done |]).
  unfold fire. st_simpl. rewrite lookup_insert_eq. cbn [action run_action].
  unfold createSession, register_client.
  now destruct (Js.get "from" req).
Qed.

(** ** Deleting *)

Lemma removeSync_gone (p : string) (st st' : State) :
  removeSync p st = Some st' -> existsSync p st' = false.
Proof.
  unfold removeSync. case_bool_decide; [done |]. intros [= <-].
  unfold existsSync. st_simpl. apply orb_false_iff. split.
  - apply bool_decide_eq_false_2. rewrite elem_of_filter.
    unfold Str.under. rewrite String.eqb_refl. intros [? _]. done.
  - apply bool_decide_eq_false_2. intros [x Hx].
    apply map_lookup_filter_Some in Hx as [_ Hx]. cbn in Hx.
    unfold Str.under in Hx. now rewrite String.eqb_refl in Hx.
Qed.

Lemma removeSync_shrinks (p q : string) (st st' : State) :
  removeSync p st = Some st' ->
  existsSync q st = false -> existsSync q st' = false.
Proof.
  unfold removeSync. case_bool_decide; [done |]. intros [= <-].
  unfold existsSync. st_simpl. rewrite !orb_false_iff.
  intros [Hd Hf]. apply bool_decide_eq_false in Hd, Hf. split.
  - apply bool_decide_eq_false_2. rewrite elem_of_filter. intros [_ Hin]. done.
  - apply bool_decide_eq_false_2. intros [x Hx].
    apply map_lookup_filter_Some in Hx as [Hx _]. eauto.
Qed.

Lemma removeSync_undeletable (p : string) (st st' : State) :
  removeSync p st = Some st' -> undeletable st' = undeletable st.
Proof.
  unfold removeSync. case_bool_decide; [done |]. now intros [= <-].
Qed.

Lemma remove_if_exists_settled (p : string) (st : State) :
  settled p st -> remove_if_exists p st = st.
Proof.
  unfold settled, remove_if_exists, removeSync. intros [-> | Hp]; [done |].
  destruct (existsSync p st); [| done].
  now rewrite bool_decide_eq_true_2.
Qed.

Lemma remove_if_exists_settles (p : string) (st : State) :
  settled p (remove_if_exists p st).
Proof.
  unfold remove_if_exists.
  destruct (existsSync p st) eqn:Hex; [| now left].
  destruct (removeSync p st) as [st'|] eqn:Hrm; cbn.
  - left. eapply removeSync_gone. eassumption.
  - right. unfold removeSync in Hrm. now case_bool_decide.
Qed.

Lemma remove_if_exists_keeps_settled (p q : string) (st : State) :
  settled q st -> settled q (remove_if_exists p st).
Proof.
  unfold remove_if_exists.
  destruct (existsSync p st); [| done].
  destruct (removeSync p st) as [st'|] eqn:Hrm; cbn; [| done].
  intros [Hq | Hq].
  - left. eapply removeSync_shrinks; eassumption.
  - right. now rewrite (removeSync_undeletable _ _ _ Hrm).
Qed.

Lemma remove_if_exists_clients (p : string) (st : State) :
  clients (remove_if_exists p st) = clients st.
Proof.
  unfold remove_if_exists, removeSync.
  destruct (existsSync p st); [| done]. now case_bool_decide.
Qed.

(** C8. Deleting is idempotent. With no session under the sanitised phone
    and neither directory on disk, the route changes nothing and answers
    200 "deleted"; and in any state, a second delete right after a first
    gives the same answer and leaves the state the first one left. *)
Theorem sessiondelete_idempotent (param : string) (st : State) :
  (clients st !! Str.clean param = None ->
   existsSync (getSessionPath (Str.clean param)) st = false ->
   existsSync (getCachePath (Str.clean param)) st = false ->
   sessiondelete param st = (st, deleted_reply (Str.clean param))) /\
  code (snd (sessiondelete param st)) = 200 /\
  Js.get "status" (body (snd (sessiondelete param st))) = JStr "deleted" /\
  sessiondelete param (fst (sessiondelete param st)) = sessiondelete param st.
Proof.
  split; [| split; [done | split; [done |]]].
  - intros Hc Hs Hcache. unfold sessiondelete. rewrite Hc.
    unfold remove_if_exists. now rewrite Hs, Hcache.
  - unfold sessiondelete at 1. cbn [fst sessiondelete].
    set (phone := Str.clean param).
    set (st0 := match clients st !! phone with
                | Some c => clearQrTimer phone
                              (upd_clients (delete phone) (destroy c st))
                | None => st
                end).
    set (st1 := remove_if_exists (getSessionPath phone) st0).
    set (st2 := remove_if_exists (getCachePath phone) st1).
    assert (Hgone : clients st2 !! phone = None).
    { subst st2 st1. rewrite !remove_if_exists_clients. subst st0.
      destruct (clients st !! phone) as [c|] eqn:Hc; [| done].
      unfold clearQrTimer, clearTimeout, destroy. st_simpl.
      destruct (qrTimers st !! phone); st_simpl; apply lookup_delete_eq. }
    rewrite Hgone.
    rewrite (remove_if_exists_settled (getSessionPath phone) st2).
    + rewrite (remove_if_exists_settled (getCachePath phone) st2); [done |].
      apply remove_if_exists_settles.
    + apply remove_if_exists_keeps_settled, remove_if_exists_settles.
Qed.

(** ** Status after pairing *)

(** The status route looks the phone up under its sanitised form. *)
Lemma status_unknown_key (param : string) (st : State) :
  clients st !! Str.clean param = None ->
  status param st = status_reply "disconnected" (Str.clean param) false.
Proof. intros H. unfold status. now rewrite H. Qed.

Lemma status_authenticated (param : string) (c : nat) (cl : Client)
    (st : State) :
  clients st !! Str.clean param = Some c ->
  heap st !! c = Some cl ->
  c_authInfo cl = true ->
  status param st = status_reply "connected" (Str.clean param) true.
Proof.
  intros Hc Hcl Hauth. unfold status. rewrite Hc, Hcl. cbn. now rewrite Hauth.
Qed.

(** With a phone made of digits only the same run is reported connected. *)
Example status_after_pairing_digits :
  status "15551234567" (pairing_run "15551234567" true)
  = status_reply "connected" "15551234567" true.
Proof.
  unfold pairing_run, awaiting_qr.
  rewrite (registerwhatsapp_creates _ "15551234567") by done.
  reflexivity.
Qed.

(** C4. Register "+15551234567", receive the QR answer, let the client be
    authenticated and ready: the session is in the registry under the phone
    as given, its client is authenticated, and yet the status route, which
    looks under "15551234567", answers "disconnected" and
    [isAuthenticated: false]. *)
Theorem status_after_pairing_plus_phone :
  let st := pairing_run "+15551234567" true in
  Js.get "status" (body (default internal_error (responses st !! 0%nat)))
  = JStr "qr" /\
  clients st !! "+15551234567" = Some 1%nat /\
  c_authInfo <$> heap st !! 1%nat = Some true /\
  status "+15551234567" st = status_reply "disconnected" "15551234567" false.
Proof.
  cbv zeta. unfold pairing_run, awaiting_qr.
  rewrite (registerwhatsapp_creates _ "+15551234567") by done.
  repeat split; reflexivity.
Qed.

(** ** Sanitised identifiers and paths *)

Lemma clean_only_id_chars (s : string) (a : ascii) :
  In a (list_ascii_of_string (Str.clean s)) -> Str.is_id_char a = true.
Proof.
  induction s as [|b s IH]; cbn [Str.clean]; [intros [] |].
  destruct (Str.is_id_char b) eqn:Hb; [| exact IH].
  cbn [list_ascii_of_string In]. intros [<- | Hin]; auto.
Qed.

Lemma clean_fixed (t : string) :
  (forall a, In a (list_ascii_of_string t) -> Str.is_id_char a = true) ->
  Str.clean t = t.
Proof.
  induction t as [|b t IH]; [reflexivity |].
  intros Hall. cbn [Str.clean].
  rewrite (Hall b) by (now left). f_equal. apply IH.
  intros a Ha. apply Hall. now right.
Qed.

Lemma clean_clean (s : string) : Str.clean (Str.clean s) = Str.clean s.
Proof. apply clean_fixed, clean_only_id_chars. Qed.

(** X1. The sanitised identifier holds only characters of [a-zA-Z0-9_-];
    a string made of such characters only is its own sanitised form; and
    sanitising twice is sanitising once. *)
Theorem clean_idempotent (s : string) :
  (forall a, In a (list_ascii_of_string (Str.clean s)) ->
             Str.is_id_char a = true) /\
  ((forall a, In a (list_ascii_of_string s) -> Str.is_id_char a = true) ->
   Str.clean s = s) /\
  Str.clean (Str.clean s) = Str.clean s.
Proof.
  split; [apply clean_only_id_chars | split; [apply clean_fixed |]].
  apply clean_clean.
Qed.

Lemma append_cons (x : ascii) (a b : string) :
  String x a +:+ b = String x (a +:+ b).
Proof. reflexivity. Qed.

Lemma append_assoc (a b c : string) : (a +:+ b) +:+ c = a +:+ (b +:+ c).
Proof.
  induction a as [|x a IH]; [reflexivity |].
  rewrite !append_cons. f_equal. exact IH.
Qed.

Lemma append_cancel_l (x a b : string) : x +:+ a = x +:+ b -> a = b.
Proof.
  induction x as [|c x IH]; [auto |].
  rewrite !append_cons. intros [= H]. auto.
Qed.

Lemma prefix_append_cancel (x a b : string) :
  String.prefix (x +:+ a) (x +:+ b) = String.prefix a b.
Proof.
  induction x as [|c x IH]; [reflexivity |].
  rewrite !append_cons. cbn [String.prefix].
  now destruct (ascii_dec c c).
Qed.

Lemma eqb_append_cancel (x a b : string) :
  String.eqb (x +:+ a) (x +:+ b) = String.eqb a b.
Proof.
  induction x as [|c x IH]; [reflexivity |].
  rewrite !append_cons. cbn [String.eqb].
  now rewrite Ascii.eqb_refl.
Qed.

Lemma getSessionPath_clean (p : string) :
  getSessionPath (Str.clean p) = getSessionPath p.
Proof. unfold getSessionPath. now rewrite clean_clean. Qed.

Lemma getCachePath_clean (p : string) :
  getCachePath (Str.clean p) = getCachePath p.
Proof. unfold getCachePath. now rewrite clean_clean. Qed.

(** X2. Two phones share a credential directory exactly when their
    sanitised identifiers coincide, and likewise for the cache directory; in
    particular a phone and its sanitised form share both. *)
Theorem session_path_by_identifier (p q : string) :
  (getSessionPath p = getSessionPath q <-> Str.clean p = Str.clean q) /\
  (getCachePath p = getCachePath q <-> Str.clean p = Str.clean q) /\
  getSessionPath (Str.clean p) = getSessionPath p /\
  getCachePath (Str.clean p) = getCachePath p.
Proof.
  split; [| split; [| split]].
  - unfold getSessionPath. split; [| now intros ->].
    intros H. now apply append_cancel_l, append_cancel_l in H.
  - unfold getCachePath. split; [| now intros ->].
    intros H. now apply append_cancel_l, append_cancel_l in H.
  - apply getSessionPath_clean.
  - apply getCachePath_clean.
Qed.

Lemma chars_append (x y : string) :
  list_ascii_of_string (x +:+ y)
  = (list_ascii_of_string x ++ list_ascii_of_string y)%list.
Proof.
  induction x as [|c x IH]; [reflexivity |].
  rewrite append_cons. cbn [list_ascii_of_string app]. now rewrite IH.
Qed.

Lemma prefix_chars (x y : string) (a : ascii) :
  String.prefix x y = true ->
  In a (list_ascii_of_string x) -> In a (list_ascii_of_string y).
Proof.
  revert y. induction x as [|c x IH]; intros y; [intros _ [] |].
  destruct y as [|d y]; cbn [String.prefix]; [discriminate |].
  destruct (ascii_dec c d) as [<- | _]; [| discriminate].
  cbn [list_ascii_of_string In]. intros Hp [-> | Hin]; [now left |].
  right. now apply IH.
Qed.

(** A sanitised identifier followed by a slash is never the start of a
    sanitised identifier. *)
Lemma clean_no_subdirectory (p q : string) :
  String.prefix (Str.clean p +:+ "/") (Str.clean q) = false.
Proof.
  apply not_true_iff_false. intros Hpre.
  assert (Hin : In "/"%char (list_ascii_of_string (Str.clean q))).
  { apply (prefix_chars _ _ _ Hpre). rewrite chars_append.
    apply in_or_app. right. now left. }
  now apply clean_only_id_chars in Hin.
Qed.

Lemma under_sessions (p q : string) :
  Str.clean p ≠ Str.clean q ->
  Str.under (getSessionPath p) (getSessionPath q) = false.
Proof.
  intros Hne. unfold Str.under, getSessionPath, AUTH_DIR.
  rewrite !append_assoc, !eqb_append_cancel, !prefix_append_cancel.
  rewrite clean_no_subdirectory, orb_false_r.
  apply String.eqb_neq. congruence.
Qed.

Lemma under_caches (p q : string) :
  Str.clean p ≠ Str.clean q ->
  Str.under (getCachePath p) (getCachePath q) = false.
Proof.
  intros Hne. unfold Str.under, getCachePath, CACHE_DIR.
  rewrite !append_assoc, !eqb_append_cancel, !prefix_append_cancel.
  rewrite clean_no_subdirectory, orb_false_r.
  apply String.eqb_neq. congruence.
Qed.

Lemma under_session_cache (p q : string) :
  Str.under (getSessionPath p) (getCachePath q) = false /\
  Str.under (getCachePath q) (getSessionPath p) = false.
Proof.
  unfold Str.under, getSessionPath, getCachePath, AUTH_DIR, CACHE_DIR.
  rewrite !append_assoc, !eqb_append_cancel, !prefix_append_cancel.
  split; reflexivity.
Qed.

(** Removing [p] leaves every path outside [p] as it was. *)
Lemma remove_if_exists_outside (p q : string) (st : State) :
  Str.under p q = false ->
  existsSync q (remove_if_exists p st) = existsSync q st.
Proof.
  intros Hout. unfold remove_if_exists, removeSync.
  destruct (existsSync p st); [| reflexivity].
  case_bool_decide; [reflexivity |]. cbn [default from_option id].
  unfold existsSync. st_simpl. f_equal; apply bool_decide_ext.
  - rewrite elem_of_filter. split; [now intros [_ ?] | now split].
  - split; intros [x Hx].
    + apply map_lookup_filter_Some in Hx as [Hx _]. eauto.
    + exists x. apply map_lookup_filter_Some. now split.
Qed.

(** ** Deleting, continued *)

Lemma remove_if_exists_frame (p : string) (st : State) :
  clients (remove_if_exists p st) = clients st /\
  qrTimers (remove_if_exists p st) = qrTimers st /\
  heap (remove_if_exists p st) = heap st /\
  timers (remove_if_exists p st) = timers st /\
  next_id (remove_if_exists p st) = next_id st /\
  undeletable (remove_if_exists p st) = undeletable st.
Proof.
  unfold remove_if_exists, removeSync.
  destruct (existsSync p st); [| done]. now case_bool_decide.
Qed.

(** The state once the route has dropped the client, before it turns to the
    disk. *)
Lemma sessiondelete_unfold (param : string) (st : State) :
  fst (sessiondelete param st)
  = remove_if_exists (getCachePath (Str.clean param))
      (remove_if_exists (getSessionPath (Str.clean param))
         match clients st !! Str.clean param with
         | Some c => clearQrTimer (Str.clean param)
                       (upd_clients (delete (Str.clean param)) (destroy c st))
         | None => st
         end).
Proof. reflexivity. Qed.

Lemma sessiondelete_unregisters (param : string) (st : State) :
  clients (fst (sessiondelete param st)) !! Str.clean param = None.
Proof.
  rewrite sessiondelete_unfold.
  rewrite !(proj1 (remove_if_exists_frame _ _)).
  destruct (clients st !! Str.clean param) as [c|] eqn:Hc; [| done].
  unfold clearQrTimer, clearTimeout, destroy. st_simpl.
  destruct (qrTimers st !! Str.clean param); st_simpl; apply lookup_delete_eq.
Qed.

(** X3. Deleting one phone leaves the others alone: every registry and
    QR-timer entry under another key stays, and the credential and cache
    directories of every phone with another sanitised identifier are on disk
    exactly when they were before. *)
Theorem sessiondelete_other_phones (param k q : string) (st : State) :
  k ≠ Str.clean param ->
  Str.clean q ≠ Str.clean param ->
  let st' := fst (sessiondelete param st) in
  clients st' !! k = clients st !! k /\
  qrTimers st' !! k = qrTimers st !! k /\
  existsSync (getSessionPath q) st' = existsSync (getSessionPath q) st /\
  existsSync (getCachePath q) st' = existsSync (getCachePath q) st.
Proof.
  intros Hk Hq st'. subst st'. rewrite sessiondelete_unfold.
  set (phone := Str.clean param) in *.
  set (st0 := match clients st !! phone with
              | Some c => clearQrTimer phone
                            (upd_clients (delete phone) (destroy c st))
              | None => st
              end).
  assert (Hclean : Str.clean phone = Str.clean param)
    by apply clean_clean.
  assert (H0 : clients st0 !! k = clients st !! k /\
               qrTimers st0 !! k = qrTimers st !! k /\
               (forall x, existsSync x st0 = existsSync x st)).
  { subst st0. destruct (clients st !! phone) as [c|]; [| done].
    unfold clearQrTimer, clearTimeout, destroy. st_simpl.
    destruct (qrTimers st !! phone) eqn:Hqr; st_simpl;
      rewrite ?lookup_delete_ne by done; done. }
  destruct H0 as (Hc & Ht & Hfs).
  destruct (remove_if_exists_frame (getSessionPath phone) st0)
    as (Hc1 & Ht1 & _).
  destruct (remove_if_exists_frame (getCachePath phone)
              (remove_if_exists (getSessionPath phone) st0))
    as (Hc2 & Ht2 & _).
  rewrite Hc2, Hc1, Ht2, Ht1.
  do 2 (split; [done |]).
  assert (Hne : Str.clean phone ≠ Str.clean q).
  { rewrite Hclean. intros E. apply Hq. now rewrite <- E. }
  split.
  - rewrite remove_if_exists_outside by apply under_session_cache.
    rewrite remove_if_exists_outside by (now apply under_sessions).
    apply Hfs.
  - rewrite remove_if_exists_outside by (now apply under_caches).
    rewrite remove_if_exists_outside by apply under_session_cache.
    apply Hfs.
Qed.

(** X4. Right after a delete the status route reports the phone
    disconnected, whatever the state was. *)
Theorem sessiondelete_then_status (param : string) (st : State) :
  status param (fst (sessiondelete param st))
  = status_reply "disconnected" (Str.clean param) false.
Proof.
  unfold status. now rewrite sessiondelete_unregisters.
Qed.

(** X5. After a delete whose credential directory could be removed, a
    registration for the sanitised phone finds neither session nor
    directory: it builds a new client and leaves the answer pending. *)
Theorem sessiondelete_then_register (param : string) (req : json)
    (st : State) :
  Str.clean param ≠ "" ->
  Js.get "phone" req = JStr (Str.clean param) ->
  getSessionPath (Str.clean param) ∉ undeletable st ->
  let st' := fst (sessiondelete param st) in
  existsSync (getSessionPath (Str.clean param)) st' = false /\
  snd (registerwhatsapp req st') = Pending (next_id st') /\
  clients (fst (registerwhatsapp req st')) !! Str.clean param
  = Some (S (next_id st')).
Proof.
  intros Hne Hreq Hdel st'.
  assert (Hgone : existsSync (getSessionPath (Str.clean param)) st' = false).
  { subst st'. rewrite sessiondelete_unfold.
    set (phone := Str.clean param) in *.
    set (st0 := match clients st !! phone with
                | Some c => clearQrTimer phone
                              (upd_clients (delete phone) (destroy c st))
                | None => st
                end).
    assert (Hun : undeletable st0 = undeletable st).
    { subst st0. destruct (clients st !! phone); [| done].
      unfold clearQrTimer, clearTimeout, destroy.
      now destruct (qrTimers _ !! phone). }
    rewrite remove_if_exists_outside by apply under_session_cache.
    destruct (remove_if_exists_settles (getSessionPath phone) st0)
      as [Hs | Hs]; [done |].
    rewrite (proj2 (proj2 (proj2 (proj2 (proj2
               (remove_if_exists_frame _ _)))))), Hun in Hs. done. }
  split; [exact Hgone |].
  rewrite (registerwhatsapp_creates req (Str.clean param) st' Hreq Hne
             (sessiondelete_unregisters param st) Hgone).
  split; [reflexivity |]. cbn [fst]. unfold register_client. st_simpl.
  apply lookup_insert_eq.
Qed.

(** ** Listeners, continued *)

Lemma clearQrTimer_frame (p : string) (st : State) :
  clients (clearQrTimer p st) = clients st /\
  heap (clearQrTimer p st) = heap st /\
  responses (clearQrTimer p st) = responses st /\
  next_id (clearQrTimer p st) = next_id st /\
  now (clearQrTimer p st) = now st /\
  notified (clearQrTimer p st) = notified st.
Proof. unfold clearQrTimer, clearTimeout. now destruct (qrTimers st !! p). Qed.

Lemma clearQrTimer_cleared (p : string) (st : State) :
  qrTimers (clearQrTimer p st) !! p = None.
Proof.
  unfold clearQrTimer, clearTimeout.
  destruct (qrTimers st !! p) eqn:Hq; st_simpl; [apply lookup_delete_eq | done].
Qed.


Lemma clearQrTimer_no_new_timer (p : string) (j : nat) (T : Timer)
    (st : State) :
  timers (clearQrTimer p st) !! j = Some T -> timers st !! j = Some T.
Proof.
  unfold clearQrTimer, clearTimeout.
  destruct (qrTimers st !! p); st_simpl; [| done].
  intros H. now apply lookup_delete_Some in H.
Qed.

(** X6. Authentication cancels the QR timeout. When a client built by
    [createSession] emits its QR challenge on a live response, a timeout is
    armed under a fresh id; once the client then emits [authenticated], that
    timeout is no longer pending, no QR timer is filed for the phone, and
    the moment the timeout would have fired passes without any effect. *)
Theorem authenticated_cancels_qr_timeout (c rid : nat) (p u : string)
    (l : json) (a d : bool) (st : State) :
  heap st !! c = Some (mkClient p l (ResExpress rid) FromCreateSession a d) ->
  responses st !! rid = None ->
  let st1 := emit c (EvQr (Some u)) st in
  let st2 := emit c EvAuthenticated st1 in
  timers st1 !! next_id st
  = Some (mkTimer (now st + 30000) (ActQrTimeout c p)) /\
  timers st2 !! next_id st = None /\
  qrTimers st2 !! p = None /\
  fire (next_id st) st2 = st2.
Proof.
  intros Hc Hrid st1 st2.
  assert (E1 : st1 = upd_qrTimers (insert p (next_id st))
                       (fst (setTimeout (ActQrTimeout c p) 30000
                               (upd_responses (insert rid (mkResponse 200
                                  (Js.object [("status", JStr "qr");
                                              ("qr", JStr u);
                                              ("phone", JStr p)]))) st)))).
  { subst st1. unfold emit. rewrite Hc. cbn [c_origin c_phone c_res].
    unfold handleQrEvent, res_json. now rewrite Hrid. }
  assert (Hheap : heap st1 !! c
                  = Some (mkClient p l (ResExpress rid) FromCreateSession a d)).
  { rewrite E1. unfold setTimeout. st_simpl. exact Hc. }
  assert (E2 : st2 = clearQrTimer p st1).
  { subst st2. unfold emit. now rewrite Hheap. }
  assert (Hq : qrTimers st1 !! p = Some (next_id st)).
  { rewrite E1. unfold setTimeout. st_simpl. apply lookup_insert_eq. }
  assert (Hgone : timers st2 !! next_id st = None).
  { rewrite E2. unfold clearQrTimer, clearTimeout. rewrite Hq. st_simpl.
    apply lookup_delete_eq. }
  split; [| split; [exact Hgone | split]].
  - rewrite E1. unfold setTimeout. st_simpl. apply lookup_insert_eq.
  - rewrite E2. apply clearQrTimer_cleared.
  - unfold fire. now rewrite Hgone.
Qed.

(** After a first challenge whose image was rendered, any further
    challenge handled by the same listener changes nothing. *)
Lemma handleQrEvent_idempotent (c : nat) (p u1 : string) (r : Res)
    (u2 : option string) (st : State) :
  handleQrEvent c p r u2 (handleQrEvent c p r (Some u1) st)
  = handleQrEvent c p r (Some u1) st.
Proof.
  destruct u2 as [u2|]; [| reflexivity].
  destruct r as [rid | |]; try reflexivity.
  unfold handleQrEvent at 2. unfold res_json.
  destruct (responses st !! rid) as [r0|] eqn:Hr.
  - unfold handleQrEvent, res_json. now rewrite Hr.
  - unfold handleQrEvent, res_json, setTimeout. st_simpl.
    rewrite lookup_insert_eq, Hr. reflexivity.
Qed.

(** After [createSession] with the stand-in response, the QR challenge of
    the new client leaves the state as it is. *)
Lemma retry_session_ignores_qr (p : string) (l : json)
    (u : option string) (st : State) :
  let st' := createSession (JStr p) l ResHeadersSent st in
  clients st' !! p = Some (next_id st) /\
  emit (next_id st) (EvQr u) st' = st'.
Proof.
  cbv zeta. unfold createSession, register_client, emit. st_simpl.
  rewrite !lookup_insert_eq. split; [reflexivity |].
  cbn [c_origin c_res c_phone]. now destruct u.
Qed.

(** X7. A QR challenge is answered at most once. After a first challenge
    whose image was rendered, any further challenge handled by the same
    listener changes nothing: no second answer, no second timer. And a
    session re-created by a retry, which carries the stand-in response,
    never answers and never arms a QR timeout at all. *)
Theorem qr_answered_at_most_once (c : nat) (p u1 : string) (r : Res)
    (l : json) (u2 : option string) (st : State) :
  handleQrEvent c p r u2 (handleQrEvent c p r (Some u1) st)
  = handleQrEvent c p r (Some u1) st /\
  emit (next_id st) (EvQr u2) (createSession (JStr p) l ResHeadersSent st)
  = createSession (JStr p) l ResHeadersSent st.
Proof.
  split; [apply handleQrEvent_idempotent |].
  apply (retry_session_ignores_qr p l u2 st).
Qed.

(** With a real or stand-in response object the failure drops the phone
    and schedules its re-creation. *)
Lemma auth_failure_recreates (c : nat) (cl : Client) (st : State) :
  heap st !! c = Some cl ->
  c_res cl ≠ ResDefault ->
  let st' := emit c EvAuthFailure st in
  clients st' !! c_phone cl = None /\
  qrTimers st' !! c_phone cl = None /\
  timers st' !! next_id st
  = Some (mkTimer (now st + 30000)
            (ActCreateSession (JStr (c_phone cl)) JNull)) /\
  (forall rid, c_res cl = ResExpress rid -> responses st !! rid = None ->
               code <$> responses st' !! rid = Some 401).
Proof.
  intros Hc Hres st'. subst st'. unfold emit. rewrite Hc.
  unfold handleAuthFailureEvent.
  destruct (c_res cl) as [rid | |] eqn:Hr; [| | done].
  - unfold headersSent, res_json.
    destruct (responses st !! rid) as [r0|] eqn:Hrid.
    + rewrite bool_decide_eq_true_2 by eauto.
      unfold setTimeout. st_simpl.
      destruct (clearQrTimer_frame (c_phone cl)
                  (upd_clients (delete (c_phone cl)) st))
        as (Hcl & _ & _ & Hn & Hnow & _).
      rewrite Hcl, Hn, Hnow, clearQrTimer_cleared. st_simpl.
      rewrite !lookup_delete_eq, lookup_insert_eq.
      repeat split; try done. intros ? [= <-]. congruence.
    + rewrite bool_decide_eq_false_2 by (intros [? ?]; discriminate).
      unfold setTimeout. st_simpl.
      destruct (clearQrTimer_frame (c_phone cl)
                  (upd_clients (delete (c_phone cl))
                     (upd_responses (insert rid (mkResponse 401 (Js.object
                        [("status", JStr "error");
                         ("message", JStr "Помилка авторизації")]))) st)))
        as (Hcl & _ & Hresp & Hn & Hnow & _).
      rewrite Hcl, Hn, Hnow, Hresp, clearQrTimer_cleared. st_simpl.
      rewrite !lookup_delete_eq, lookup_insert_eq.
      repeat split; try done. intros ? [= <-] _.
      now rewrite lookup_insert_eq.
  - cbn [headersSent]. unfold setTimeout. st_simpl.
    destruct (clearQrTimer_frame (c_phone cl)
                (upd_clients (delete (c_phone cl)) st))
      as (Hcl & _ & _ & Hn & Hnow & _).
    rewrite Hcl, Hn, Hnow, clearQrTimer_cleared. st_simpl.
    rewrite !lookup_delete_eq, lookup_insert_eq.
    repeat split; try done.
Qed.

(** With the default response object the listener ends in the raise of
    [res.status]. *)
Lemma auth_failure_resumed_no_effect (c : nat) (cl : Client) (st : State) :
  heap st !! c = Some cl ->
  c_res cl = ResDefault ->
  emit c EvAuthFailure st = st.
Proof.
  intros Hc Hres. unfold emit. rewrite Hc. unfold handleAuthFailureEvent.
  now rewrite Hres.
Qed.

(** X8. What an authentication failure does depends on the response object
    the listener holds. With a real or stand-in one (every client built by
    [createSession]) the phone leaves the registry and the QR timers, one
    [createSession] for the phone, without its line id, is scheduled 30
    seconds later, and a response still unanswered receives the 401. With
    the default one (every resumed client) the listener ends in the raise
    of [res.status]: the session stays registered and nothing is
    scheduled. *)
Theorem auth_failure_outcomes (c : nat) (cl : Client) (st : State) :
  heap st !! c = Some cl ->
  let st' := emit c EvAuthFailure st in
  (c_res cl = ResDefault -> st' = st) /\
  (c_res cl ≠ ResDefault ->
   clients st' !! c_phone cl = None /\
   qrTimers st' !! c_phone cl = None /\
   timers st' !! next_id st
   = Some (mkTimer (now st + 30000)
             (ActCreateSession (JStr (c_phone cl)) JNull)) /\
   (forall rid, c_res cl = ResExpress rid -> responses st !! rid = None ->
                code <$> responses st' !! rid = Some 401)).
Proof.
  intros Hc st'. subst st'. split.
  - now apply auth_failure_resumed_no_effect.
  - now apply auth_failure_recreates.
Qed.

(** X9. Disconnection and the resume that follows. A [disconnected] event
    drops the phone from the registry and schedules one [initializeClient]
    30 seconds later. When that timer fires, the phone is registered again,
    with a fresh resumed client, if its credential directory is on disk; if
    it is not, the phone stays out of the registry and no timer is left
    that was not pending before the event. *)
Theorem disconnect_then_resume (c : nat) (cl : Client) (st : State) :
  heap st !! c = Some cl ->
  let p := c_phone cl in
  let st1 := emit c EvDisconnected st in
  let st2 := fire (next_id st) st1 in
  clients st1 !! p = None /\
  timers st1 !! next_id st
  = Some (mkTimer (now st + 30000) (ActInitializeClient p JNull)) /\
  (existsSync (getSessionPath p) st = true ->
   clients st2 !! p = Some (S (next_id st)) /\
   heap st2 !! S (next_id st)
   = Some (mkClient p JNull ResDefault FromInitializeClient false false)) /\
  (existsSync (getSessionPath p) st = false ->
   clients st2 !! p = None /\
   forall j T, timers st2 !! j = Some T -> timers st !! j = Some T).
Proof.
  intros Hc p st1 st2.
  set (st0 := clearQrTimer p (upd_clients (delete p) st)).
  destruct (clearQrTimer_frame p (upd_clients (delete p) st))
    as (Hcl & Hheap & _ & Hn & Hnow & _). fold st0 in Hcl, Hheap, Hn, Hnow.
  st_simpl.
  assert (E1 : st1 = upd_next_id S
                       (upd_timers (insert (next_id st)
                          (mkTimer (now st + 30000)
                             (ActInitializeClient p JNull))) st0)).
  { subst st1. unfold emit. rewrite Hc. unfold handleDisconnectedEvent.
    fold p. fold st0. unfold setTimeout. cbn [fst]. now rewrite Hn, Hnow. }
  assert (Hex : forall x, existsSync x st0 = existsSync x st).
  { intros x. subst st0. unfold clearQrTimer, clearTimeout.
    now destruct (qrTimers _ !! p). }
  assert (E2 : st2 = initializeClient p JNull
                       (upd_now (Z.max (now st + 30000))
                          (upd_timers (delete (next_id st))
                             (upd_next_id S
                                (upd_timers (insert (next_id st)
                                   (mkTimer (now st + 30000)
                                      (ActInitializeClient p JNull)))
                                   st0))))).
  { subst st2. rewrite E1. unfold fire. st_simpl.
    rewrite lookup_insert_eq. reflexivity. }
  assert (Hpath : getSessionPath (Str.clean p) = getSessionPath p)
    by apply getSessionPath_clean.
  split; [| split; [| split]].
  - rewrite E1. st_simpl. rewrite Hcl. apply lookup_delete_eq.
  - rewrite E1. st_simpl. apply lookup_insert_eq.
  - intros Hdir. rewrite E2. unfold initializeClient. rewrite Hpath.
    replace (existsSync (getSessionPath p) _) with true
      by (symmetry; rewrite <- Hdir, <- (Hex (getSessionPath p)); reflexivity).
    unfold register_client. st_simpl. rewrite Hn.
    now rewrite !lookup_insert_eq.
  - intros Hdir. rewrite E2. unfold initializeClient. rewrite Hpath.
    replace (existsSync (getSessionPath p) _) with false
      by (symmetry; rewrite <- Hdir, <- (Hex (getSessionPath p)); reflexivity).
    st_simpl. rewrite Hcl. split; [apply lookup_delete_eq |].
    intros j T HT. apply lookup_delete_Some in HT as [Hj HT].
    rewrite lookup_insert_ne in HT by done.
    subst st0. now apply clearQrTimer_no_new_timer in HT.
Qed.


(** ** What is never undone *)

Lemma res_json_keeps (r0 : Res) (resp : Response) (rid : nat) (r : Response)
    (st st' : State) :
  res_json r0 resp st = Some st' ->
  responses st !! rid = Some r -> responses st' !! rid = Some r.
Proof.
  unfold res_json. destruct r0 as [rid0 | |]; try discriminate.
  destruct (responses st !! rid0) eqn:H0; [discriminate |].
  intros [= <-] Hr. st_simpl.
  rewrite lookup_insert_ne; [done | congruence].
Qed.

Lemma media_arm_frame (m : Message) (p : string) (dl : Download)
    (st : State) (text : string) (media : json) (st' : State) :
  media_arm m p dl st = Some (text, media, st') ->
  clients st' = clients st /\ qrTimers st' = qrTimers st /\
  heap st' = heap st /\ timers st' = timers st /\
  responses st' = responses st /\ webhook_posts st' = webhook_posts st /\
  outbound st' = outbound st.
Proof.
  unfold media_arm. destruct dl as [media0 | |]; [| now intros [= <- <- <-] | done].
  destruct (existsSync _ st); destruct (too_large _);
    now intros [= <- <- <-].
Qed.

Lemma handleMessageEvent_frame (m : Message) (p : string) (dl : Download)
    (st : State) :
  clients (handleMessageEvent m p dl st) = clients st /\
  qrTimers (handleMessageEvent m p dl st) = qrTimers st /\
  heap (handleMessageEvent m p dl st) = heap st /\
  timers (handleMessageEvent m p dl st) = timers st /\
  responses (handleMessageEvent m p dl st) = responses st /\
  outbound (handleMessageEvent m p dl st) = outbound st.
Proof.
  unfold handleMessageEvent.
  destruct (negb (individual_chat m)); [done |].
  destruct (outgoing m p); [done |].
  destruct (is_text_type (m_type m)); [done |].
  destruct (is_media_type (m_type m)).
  - destruct (media_arm m p dl st) as [[[text media] st']|] eqn:Harm; [| done].
    apply media_arm_frame in Harm. st_simpl. tauto.
  - now destruct (String.eqb (m_type m) "reaction").
Qed.

Lemma run_action_responses (a : Action) (st : State) :
  responses (run_action a st) = responses st.
Proof.
  destruct a as [c p | p l | p l]; cbn [run_action].
  - unfold qr_timeout. destruct (heap st !! c) as [cl|]; [| done].
    destruct (c_authInfo cl); [done |].
    unfold setTimeout, destroy. st_simpl.
    now rewrite (proj1 (proj2 (proj2 (clearQrTimer_frame _ _)))).
  - unfold createSession, register_client. now destruct p.
  - unfold initializeClient, register_client.
    now destruct (existsSync _ st).
Qed.

(** X11. An HTTP response, once sent on a response object, is never
    replaced: whatever event a client emits, whichever timer fires and
    whichever route runs next, the response recorded for that object stays
    the same. *)
Theorem response_sent_once (rid : nat) (r : Response) (st : State) :
  responses st !! rid = Some r ->
  (forall c ev, responses (emit c ev st) !! rid = Some r) /\
  (forall id, responses (fire id st) !! rid = Some r) /\
  (forall req, responses (fst (registerwhatsapp req st)) !! rid = Some r) /\
  (forall req sent hex,
      responses (fst (sendmsg req sent hex st)) !! rid = Some r) /\
  (forall param, responses (fst (sessiondelete param st)) !! rid = Some r).
Proof.
  intros Hr. split; [| split; [| split; [| split]]].
  - intros c ev. unfold emit. destruct (heap st !! c) as [cl|]; [| done].
    destruct ev as [u | n | | | | m dl |].
    + destruct (c_origin cl); [| done]. unfold handleQrEvent.
      destruct u as [u|]; [| done].
      destruct (res_json _ _ st) as [st1|] eqn:Hj; [| done].
      unfold setTimeout. st_simpl. eapply res_json_keeps; eauto.
    + unfold handleReadyEvent.
      set (st0 := upd_notified _ _).
      assert (H0 : responses st0 !! rid = Some r).
      { subst st0. st_simpl.
        now rewrite (proj1 (proj2 (proj2 (clearQrTimer_frame _ _)))). }
      assert (Hcl : forall s, responses s !! rid = Some r ->
                responses (clearQrTimer (Str.clean (c_phone cl)) s) !! rid
                = Some r).
      { intros s Hs.
        now rewrite (proj1 (proj2 (proj2 (clearQrTimer_frame _ _)))). }
      destruct n; try done.
      * destruct (_ && _); [| now apply Hcl].
        destruct (res_json _ _ st0) as [st1|] eqn:Hj; [| done].
        apply Hcl. eapply res_json_keeps; eauto.
      * destruct (_ && _); [| now apply Hcl].
        destruct (res_json _ _ st0) as [st1|] eqn:Hj; [| done].
        apply Hcl. eapply res_json_keeps; eauto.
    + unfold handleAuthenticatedEvent.
      now rewrite (proj1 (proj2 (proj2 (clearQrTimer_frame _ _)))).
    + unfold handleAuthFailureEvent.
      destruct (headersSent (c_res cl) st).
      * unfold setTimeout. st_simpl.
        now rewrite (proj1 (proj2 (proj2 (clearQrTimer_frame _ _)))).
      * destruct (res_json _ _ st) as [st1|] eqn:Hj; [| done].
        unfold setTimeout. st_simpl.
        rewrite (proj1 (proj2 (proj2 (clearQrTimer_frame _ _)))). st_simpl.
        eapply res_json_keeps; eauto.
    + unfold handleDisconnectedEvent, setTimeout. st_simpl.
      now rewrite (proj1 (proj2 (proj2 (clearQrTimer_frame _ _)))).
    + now rewrite (proj1 (proj2 (proj2 (proj2 (proj2
                     (handleMessageEvent_frame _ _ _ _)))))).
    + unfold initialize_rejected, setTimeout. now st_simpl.
  - intros id. unfold fire. destruct (timers st !! id) as [t|]; [| done].
    now rewrite run_action_responses.
  - intros req. unfold registerwhatsapp.
    destruct (negb (Js.truthy (Js.get "phone" req))); [done |].
    destruct (Js.get "phone" req); try done.
    destruct (_ || _); [done |].
    unfold createSession, register_client. now st_simpl.
  - intros req sent hex. unfold sendmsg, send_and_reply, setTimeout.
    repeat first [ done
                 | match goal with
                   | |- context [if ?b then _ else _] => destruct b
                   | |- context [match ?x with _ => _ end] => destruct x
                   end; st_simpl ].
  - intros param. rewrite sessiondelete_unfold.
    assert (Hrm : forall q s, responses (remove_if_exists q s) = responses s).
    { intros q s. unfold remove_if_exists, removeSync.
      destruct (existsSync q s); [| done]. now case_bool_decide. }
    rewrite !Hrm. destruct (clients st !! Str.clean param); [| done].
    rewrite (proj1 (proj2 (proj2 (clearQrTimer_frame _ _)))).
    unfold destroy. now st_simpl.
Qed.

(** ** Bootstrap, continued *)

Lemma fetch_loop_first_success (world : nat -> option HttpReply)
    (maxRetries : nat) (retryDelay : Z) (k : nat) (data : list json) :
  (k <= maxRetries)%nat ->
  attempt_body (world k) = Some data ->
  forall fuel attempt fetches delays,
    (attempt <= k)%nat ->
    (k - attempt < fuel)%nat ->
    (forall j, (attempt <= j < k)%nat -> attempt_body (world j) = None) ->
    fetch_loop world maxRetries retryDelay fuel attempt fetches delays
    = Some (mkRun data (fetches + (k - attempt) + 1)
              (delays ++ repeat retryDelay (k - attempt))%list).
Proof.
  intros Hk Hdata.
  induction fuel as [|fuel IH]; intros attempt fetches delays Hle Hfuel Hfail.
  - lia.
  - cbn [fetch_loop].
    rewrite (proj2 (Nat.leb_le attempt maxRetries)) by lia.
    destruct (Nat.eq_dec attempt k) as [-> | Hne].
    + rewrite Hdata, Nat.sub_diag, Nat.add_0_r, Nat.add_1_r. cbn [repeat].
      now rewrite app_nil_r.
    + rewrite Hfail by lia.
      rewrite (proj2 (Nat.eqb_neq attempt maxRetries)) by lia.
      rewrite IH by (try lia; intros j Hj; apply Hfail; lia).
      replace (k - attempt)%nat with (S (k - S attempt)) by lia.
      cbn [repeat]. rewrite <- app_assoc. cbn [app]. do 2 f_equal. lia.
Qed.

(** X12. When the fetch of the registered phones first succeeds at its
    [k]-th attempt, within the limit, [fetchRegisteredPhones] returns what
    that attempt yielded, after exactly [k] fetches and [k - 1] delays; it
    does not fetch again. *)
Theorem fetchRegisteredPhones_first_success
    (world : nat -> option HttpReply) (maxRetries : nat) (retryDelay : Z)
    (k : nat) (data : list json) :
  (1 <= k <= maxRetries)%nat ->
  (forall j, (1 <= j < k)%nat -> attempt_body (world j) = None) ->
  attempt_body (world k) = Some data ->
  fetchRegisteredPhones world maxRetries retryDelay
  = Some (mkRun data k (repeat retryDelay (k - 1))).
Proof.
  intros Hk Hfail Hdata. unfold fetchRegisteredPhones.
  rewrite (fetch_loop_first_success world maxRetries retryDelay k data)
    by (try assumption; lia).
  cbn [app]. do 2 f_equal. lia.
Qed.

Lemma fetch_loop_bounded (world : nat -> option HttpReply)
    (maxRetries : nat) (retryDelay : Z) :
  forall fuel attempt fetches delays,
    (maxRetries + 1 - attempt < fuel)%nat ->
    exists run,
      fetch_loop world maxRetries retryDelay fuel attempt fetches delays
      = Some run /\
      ((attempt <= maxRetries)%nat -> (S fetches <= run_fetches run)%nat) /\
      (fetches <= run_fetches run)%nat /\
      (run_fetches run <= fetches + (maxRetries + 1 - attempt))%nat /\
      run_delays run
      = (delays ++ repeat retryDelay (run_fetches run - S fetches))%list.
Proof.
  induction fuel as [|fuel IH]; intros attempt fetches delays Hfuel; [lia |].
  cbn [fetch_loop]. destruct (Nat.leb_spec attempt maxRetries) as [Hle | Hgt].
  - destruct (attempt_body (world attempt)) as [data|].
    + eexists. split; [reflexivity |]. cbn [run_fetches run_delays].
      rewrite Nat.sub_diag. cbn [repeat]. rewrite app_nil_r.
      repeat split; lia.
    + destruct (Nat.eqb_spec attempt maxRetries) as [-> | Hne].
      * eexists. split; [reflexivity |]. cbn [run_fetches run_delays].
        rewrite Nat.sub_diag. cbn [repeat]. rewrite app_nil_r.
        repeat split; lia.
      * destruct (IH (S attempt) (S fetches) (delays ++ [retryDelay])%list)
          as (run & -> & Hmin & Hlo & Hhi & Hd); [lia |].
        exists run. split; [reflexivity |].
        specialize (Hmin ltac:(lia)).
        repeat split; try lia.
        rewrite Hd, <- app_assoc. cbn [app]. f_equal.
        replace (run_fetches run - S fetches)%nat
          with (S (run_fetches run - S (S fetches))) by lia.
        reflexivity.
  - eexists. split; [reflexivity |]. cbn [run_fetches run_delays].
    replace (fetches - S fetches)%nat with 0%nat by lia.
    cbn [repeat]. rewrite app_nil_r. repeat split; lia.
Qed.

(** X13. Whatever the backend does, [fetchRegisteredPhones] returns, after
    at most [maxRetries] fetches, and it has waited [retryDelay] exactly once
    between two consecutive fetches and never after the last. *)
Theorem fetchRegisteredPhones_bounded (world : nat -> option HttpReply)
    (maxRetries : nat) (retryDelay : Z) :
  exists run,
    fetchRegisteredPhones world maxRetries retryDelay = Some run /\
    (run_fetches run <= maxRetries)%nat /\
    run_delays run = repeat retryDelay (run_fetches run - 1).
Proof.
  unfold fetchRegisteredPhones.
  destruct (fetch_loop_bounded world maxRetries retryDelay (S maxRetries)
              1 0 []) as (run & Hrun & _ & _ & Hhi & Hd); [lia |].
  exists run. split; [exact Hrun |]. split; [lia |]. exact Hd.
Qed.

Lemma register_client_exists (p : string) (l : json) (r : Res) (o : Origin)
    (x : string) (st : State) :
  existsSync x (register_client p l r o st) = existsSync x st.
Proof. reflexivity. Qed.

Lemma bootstrap_loop_clients (init_ok : string -> bool) :
  forall entries st p c,
    clients (bootstrap_loop entries init_ok st) !! p = Some c ->
    clients st !! p = Some c \/ existsSync (getSessionPath p) st = true.
Proof.
  induction entries as [|entry rest IH]; intros st p c; cbn [bootstrap_loop];
    [now left |].
  destruct (Js.get "phoneNumber" entry) as [| | | | q | |]; try (now left).
  rewrite getSessionPath_clean.
  destruct (existsSync (getSessionPath q) st) eqn:Hdir; [| apply IH].
  intros H. apply IH in H.
  destruct (init_ok q).
  - rewrite register_client_exists in H. destruct H as [H | H]; [| now right].
    unfold register_client in H. st_simpl.
    destruct (decide (q = p)) as [-> | Hne]; [now right |].
    rewrite lookup_insert_ne in H by done. now left.
  - destruct H as [H | H]; [| now right].
    unfold initialize_rejected, setTimeout, register_client in H. st_simpl.
    cbn [c_phone] in H. apply lookup_delete_Some in H as [Hne H].
    rewrite lookup_insert_ne in H by done. now left.
Qed.

(** X14. Start-up never builds a session for a phone without persisted
    credentials: any phone in the registry after
    [initializeRegisteredSessions] either was there before, with the same
    client, or has its credential directory on disk. *)
Theorem bootstrap_needs_credentials (world : nat -> option HttpReply)
    (init_ok : string -> bool) (st : State) (p : string) (c : nat) :
  clients (initializeRegisteredSessions world init_ok st) !! p = Some c ->
  clients st !! p = Some c \/ existsSync (getSessionPath p) st = true.
Proof.
  unfold initializeRegisteredSessions.
  destruct (fetchRegisteredPhones world 5 30000) as [run|]; [| now left].
  destruct (run_result run) as [|entry rest]; [now left |].
  intros H. now apply bootstrap_loop_clients in H.
Qed.

(** X15. An entry of the registered phones without a string [phoneNumber]
    ends the restoring loop: the entries before it are processed, the
    entries after it are never looked at. *)
Theorem bootstrap_stops_at_malformed (good rest : list json) (bad : json)
    (init_ok : string -> bool) (st : State) :
  Forall (fun entry => exists p, Js.get "phoneNumber" entry = JStr p) good ->
  (forall p, Js.get "phoneNumber" bad ≠ JStr p) ->
  bootstrap_loop (good ++ bad :: rest) init_ok st
  = bootstrap_loop good init_ok st.
Proof.
  intros Hgood Hbad. revert st.
  induction Hgood as [|entry good [p Hp] _ IH]; intros st.
  - cbn [app bootstrap_loop].
    destruct (Js.get "phoneNumber" bad) as [| | | | q | |]; try reflexivity.
    now destruct (Hbad q).
  - cbn [app bootstrap_loop]. rewrite Hp. apply IH.
Qed.

(** ** Inbound messages, continued *)

(** Reading a property after an assignment. *)
Lemma assoc_set_prop (k k' : string) (v : json)
    (fields : list (string * json)) :
  Js.assoc k (Js.set_prop k' v fields)
  = if String.eqb k' k then Some v else Js.assoc k fields.
Proof.
  induction fields as [|[k1 v1] fields IH]; cbn [Js.set_prop Js.assoc].
  - now destruct (String.eqb k' k).
  - destruct (String.eqb_spec k1 k') as [-> | Hne]; cbn [Js.assoc].
    + now destruct (String.eqb k' k).
    + rewrite IH. destruct (String.eqb_spec k1 k) as [-> | Hk]; [| done].
      now rewrite (proj2 (String.eqb_neq k' k)) by congruence.
Qed.

Lemma first_message_unfold (m : Message) (p text : string) (media : json) :
  first_message (payload m p text media)
  = JObj (Js.set_prop (m_type m) media
            [("id", JStr (m_id m));
             ("from", JStr (Str.replace_first "@c.us" "" (m_from m)));
             ("timestamp", JNum (m_timestamp m));
             ("type", JStr (m_type m));
             ("text", Js.object [("body", JStr text)])]).
Proof. reflexivity. Qed.

Lemma payload_type_key (m : Message) (p text : string) (media : json) :
  Js.get (m_type m) (first_message (payload m p text media)) = media.
Proof.
  rewrite first_message_unfold. unfold Js.get.
  now rewrite assoc_set_prop, String.eqb_refl.
Qed.

(** X16. In the message of a webhook payload the media value is always
    found under the key named by the message type, and each of the five
    fixed fields ([id], [from], [timestamp], [type], [text]) holds its
    value exactly when the type is not that field's name; the owning phone
    is under [metadata.phone_number_id] in every case. *)
Theorem payload_fields (m : Message) (p text : string) (media : json) :
  let msg := first_message (payload m p text media) in
  Js.get (m_type m) msg = media /\
  (m_type m ≠ "id" -> Js.get "id" msg = JStr (m_id m)) /\
  (m_type m ≠ "from" ->
   Js.get "from" msg = JStr (Str.replace_first "@c.us" "" (m_from m))) /\
  (m_type m ≠ "timestamp" -> Js.get "timestamp" msg = JNum (m_timestamp m)) /\
  (m_type m ≠ "type" -> Js.get "type" msg = JStr (m_type m)) /\
  (m_type m ≠ "text" ->
   Js.get "body" (Js.get "text" msg) = JStr text) /\
  phone_number_id (payload m p text media) = JStr p.
Proof.
  cbv zeta. rewrite first_message_unfold. unfold Js.get at 1 2 3 4 5 7.
  rewrite !assoc_set_prop, String.eqb_refl.
  repeat split; try reflexivity; intros Hne;
    rewrite (proj2 (String.eqb_neq _ _) Hne); reflexivity.
Qed.

Lemma replace_first_suffix (pat : string) (a : ascii) (n : string) :
  ~ In a (list_ascii_of_string n) ->
  Str.replace_first (String a pat) "" (n +:+ String a pat) = n.
Proof.
  induction n as [|b n IH]; intros Hno.
  - change ("" +:+ String a pat) with (String a pat).
    cbn [Str.replace_first String.prefix].
    destruct (ascii_dec a a) as [_ | Hne]; [| done].
    assert (Hpre : forall s, String.prefix s s = true).
    { induction s as [|c s IHs]; [done |]. cbn [String.prefix].
      now destruct (ascii_dec c c). }
    rewrite Hpre. cbn [String.length Str.drop].
    assert (Hdrop : forall s, Str.drop (String.length s) s = "").
    { induction s as [|c s IHs]; [done | exact IHs]. }
    now rewrite Hdrop.
  - rewrite append_cons. cbn [Str.replace_first String.prefix].
    destruct (ascii_dec a b) as [-> | Hne].
    + exfalso. apply Hno. now left.
    + f_equal. apply IH. intros Hin. apply Hno. now right.
Qed.

Lemma length_append (n s : string) :
  String.length (n +:+ s) = (String.length n + String.length s)%nat.
Proof.
  induction n as [|b n IH]; [done |]. rewrite append_cons.
  cbn [String.length]. now rewrite IH.
Qed.

Lemma drop_append (n s : string) : Str.drop (String.length n) (n +:+ s) = s.
Proof.
  induction n as [|b n IH]; [done |]. rewrite append_cons. exact IH.
Qed.

Lemma ends_with_append (suffix n : string) :
  Str.ends_with suffix (n +:+ suffix) = true.
Proof.
  unfold Str.ends_with. rewrite length_append.
  apply andb_true_iff. split; [apply Nat.leb_le; lia |].
  replace (String.length n + String.length suffix - String.length suffix)%nat
    with (String.length n) by lia.
  rewrite drop_append. apply String.eqb_refl.
Qed.

(** X17. A sender id [n@c.us], with no [@] inside [n], passes the
    individual-chat test on the sender's side and is reported to the
    webhook as [n]. *)
Theorem sender_reported_bare (n : string) :
  ~ In "@"%char (list_ascii_of_string n) ->
  Str.ends_with "@c.us" (n +:+ "@c.us") = true /\
  Str.replace_first "@c.us" "" (n +:+ "@c.us") = n.
Proof.
  intros Hno. split; [apply ends_with_append |].
  now apply (replace_first_suffix "c.us" "@").
Qed.




(** X20. When the download of an accepted media message yields nothing, the
    message is still posted, once, with the text "{type} (не вдалося
    завантажити)" and no media object, and the disk is left as it was. *)
Theorem media_missing_fallback (m : Message) (p : string) (st : State) :
  individual_chat m = true ->
  outgoing m p = false ->
  is_media_type (m_type m) = true ->
  let st' := handleMessageEvent m p NoMedia st in
  let pl := payload m p (m_type m +:+ " (не вдалося завантажити)") JNull in
  webhook_posts st' = (webhook_posts st ++ [pl])%list /\
  files st' = files st /\ dirs st' = dirs st /\
  Js.get (m_type m) (first_message pl) = JNull.
Proof.
  intros Hchat Hout Htype. cbv zeta. unfold handleMessageEvent.
  rewrite Hchat, Hout, (media_type_not_text _ Htype), Htype. cbn [negb].
  repeat split; try reflexivity. apply payload_type_key.
Qed.

(** ** The routes, continued *)






(** X23. A text send to a connected session hands the client exactly one
    message, the text for the chat [{to}@c.us]. If the client resolves, the
    answer is 200 "sent" with the provider's message id, or with the random
    id when the provider gave none; that id is non-empty as soon as the
    random one is. If the client rejects, the answer is 500 with the
    rejection's message. *)
Theorem sendmsg_text (req : json) (sent : SendOutcome) (hex to : string)
    (c : nat) (st : State) :
  Js.truthy (Js.get "from" req) = true ->
  Js.get "to" req = JStr to -> to ≠ "" ->
  Js.truthy (Js.get "message" req) = true ->
  clients_get (Js.get "from" req) st = Some c ->
  Js.is_string "text" (Js.get_default "contentType" (JStr "text") req)
    = true ->
  let st' := fst (sendmsg req sent hex st) in
  let r := snd (sendmsg req sent hex st) in
  outbound st'
  = (outbound st ++ [mkOutbound c (to +:+ "@c.us")
                       (Text (Js.get "message" req))])%list /\
  match sent with
  | SendResolved id =>
      r = mkResponse 200 (Js.object
            [("status", JStr "sent");
             ("messageId", JStr (Str.or_else (default "" id) hex));
             ("bitrixMessageId", Js.get "bitrixMessageId" req)]) /\
      (id ≠ None -> id ≠ Some "" ->
       Some (Str.or_else (default "" id) hex) = id) /\
      (hex ≠ "" -> Str.or_else (default "" id) hex ≠ "")
  | SendRejected message =>
      r = mkResponse 500 (Js.object [("status", JStr "error");
                                     ("message", JStr message)])
  end.
Proof.
  intros Hfrom Hto Hne Hmsg Hc Htext. cbv zeta. unfold sendmsg.
  rewrite Hfrom, Hto, (truthy_nonempty to Hne), Hmsg, Hc, Htext.
  cbn [negb orb Js.to_text].
  unfold send_and_reply. destruct sent as [e | id]; [done |].
  split; [done |]. split; [done |]. split.
  - destruct id as [s|]; [| done]. intros _ Hs. cbn [default from_option id].
    unfold Str.or_else. destruct (String.eqb_spec s ""); [congruence | done].
  - intros Hhex. unfold Str.or_else.
    destruct (String.eqb_spec (default "" id) ""); [done | done].
Qed.

(** X24. A send with a string content type other than text needs a file.
    With a [filePath] naming a file on disk, the client is handed one media
    message for the chat [{to}@c.us], made from the content type and the
    file's data, with the text as caption. When nothing exists at
    [filePath] the answer is 400 "file not found", and without any
    [filePath] it is 400 "unsupported contentType"; nothing is sent and
    nothing changes in either case. *)
Theorem sendmsg_media (req : json) (sent : SendOutcome) (hex to ct : string)
    (c : nat) (st : State) :
  Js.truthy (Js.get "from" req) = true ->
  Js.get "to" req = JStr to -> to ≠ "" ->
  Js.truthy (Js.get "message" req) = true ->
  clients_get (Js.get "from" req) st = Some c ->
  Js.get "contentType" req = JStr ct -> ct ≠ "text" ->
  (forall path data,
      Js.get "filePath" req = JStr path -> path ≠ "" ->
      files st !! path = Some data ->
      outbound (fst (sendmsg req sent hex st))
      = (outbound st ++ [mkOutbound c (to +:+ "@c.us")
                           (Media (JStr ct) data path
                              (Js.get "message" req))])%list) /\
  (forall path,
      Js.get "filePath" req = JStr path -> path ≠ "" ->
      existsSync path st = false ->
      sendmsg req sent hex st
      = (st, bad_request ("Файл не знайдено: " +:+ path))) /\
  (Js.truthy (Js.get "filePath" req) = false ->
   sendmsg req sent hex st
   = (st, bad_request ("Непідтримуваний contentType: " +:+ ct))).
Proof.
  intros Hfrom Hto Hne Hmsg Hc Hct Hnot. unfold sendmsg.
  assert (Hdef : Js.get_default "contentType" (JStr "text") req = JStr ct).
  { unfold Js.get_default. now rewrite Hct. }
  rewrite Hfrom, Hto, (truthy_nonempty to Hne), Hmsg, Hc, Hdef.
  cbn [negb orb Js.to_text Js.is_string].
  rewrite (proj2 (String.eqb_neq ct "text") Hnot).
  split; [| split].
  - intros path data -> Hp Hfile. rewrite (truthy_nonempty path Hp).
    assert (Hex : existsSync path st = true).
    { unfold existsSync. apply orb_true_iff. right.
      apply bool_decide_eq_true. eauto. }
    rewrite Hex, Hfile. unfold send_and_reply. now destruct sent.
  - intros path -> Hp Hex. now rewrite (truthy_nonempty path Hp), Hex.
  - now intros ->.
Qed.

(** The status route answers "connected" exactly when the registry holds,
    under the sanitised phone, a client whose [authInfo] is set. *)
Lemma status_connected_iff (param : string) (st : State) :
  status param st = status_reply "connected" (Str.clean param) true <->
  exists c cl, clients st !! Str.clean param = Some c /\
               heap st !! c = Some cl /\ c_authInfo cl = true.
Proof.
  split.
  - unfold status. destruct (clients st !! Str.clean param) as [c|]; [| done].
    destruct (heap st !! c) as [cl|] eqn:Hcl; cbn; [| done].
    destruct (c_authInfo cl) eqn:Hauth; [| done]. eauto.
  - intros (c & cl & Hc & Hcl & Hauth). unfold status.
    rewrite Hc, Hcl. cbn. now rewrite Hauth.
Qed.

(** X25. [createSession] for a phone that is already registered files the
    new client in place of the old one and never destroys: the old client
    object is left exactly as it was, no longer reachable from the
    registry under that phone. *)
Theorem createSession_replaces_without_destroying (p : string)
    (l : json) (r : Res) (c : nat) (cl : Client) (st : State) :
  clients st !! p = Some c ->
  heap st !! c = Some cl ->
  c ≠ next_id st ->
  let st' := createSession (JStr p) l r st in
  clients st' !! p = Some (next_id st) /\
  heap st' !! next_id st
  = Some (mkClient p l r FromCreateSession false false) /\
  heap st' !! c = Some cl.
Proof.
  intros Hp Hc Hne. cbv zeta. unfold createSession, register_client. st_simpl.
  rewrite !lookup_insert_eq, lookup_insert_ne by done.
  done.
Qed.

(** X26. A rejected [initialize] of a client built by [createSession] drops
    the phone from the registry and schedules, 30 seconds later, a
    [createSession] with the same phone and line id; when it fires, the
    phone is registered again under a new client that carries the stand-in
    response. *)
Theorem initialize_rejected_retries (c : nat) (cl : Client) (st : State) :
  heap st !! c = Some cl ->
  c_origin cl = FromCreateSession ->
  let st1 := emit c EvInitializeRejected st in
  let st2 := fire (next_id st) st1 in
  clients st1 !! c_phone cl = None /\
  timers st1 !! next_id st
  = Some (mkTimer (now st + 30000)
            (ActCreateSession (JStr (c_phone cl)) (c_lineId cl))) /\
  clients st2 !! c_phone cl = Some (S (next_id st)) /\
  heap st2 !! S (next_id st)
  = Some (mkClient (c_phone cl) (c_lineId cl) ResHeadersSent
            FromCreateSession false false).
Proof.
  intros Hc Ho. cbv zeta. unfold emit. rewrite Hc.
  unfold initialize_rejected, setTimeout. rewrite Ho. st_simpl.
  rewrite lookup_delete_eq, lookup_insert_eq.
  do 2 (split; [done |]).
  unfold fire. st_simpl. rewrite lookup_insert_eq. cbn [action run_action].
  unfold createSession, register_client. st_simpl.
  now rewrite !lookup_insert_eq.
Qed.

End Gateway.

(** * The properties at sample inputs *)

(** The script installed under [/srv/whatsapp]. *)

Lemma register_existing_session_witness :
  let st := awaiting_qr "/srv/whatsapp" mebibyte_per_char "15550001111" in
  clients st !! "15550001111" = Some 1%nat /\
  registerwhatsapp "/srv/whatsapp" sample_register st
  = (st, Replied (already_connected (JStr "15550001111") (JStr "7"))).
Proof.
  cbv zeta. split; [reflexivity |].
  apply (register_existing_session "/srv/whatsapp" sample_register
           "15550001111" 1).
  - reflexivity.
  - discriminate.
  - reflexivity.
Defined.

Lemma register_persisted_credentials_witness :
  let st := with_credentials "/srv/whatsapp" "15550001111" in
  clients st !! "15550001111" = None /\
  existsSync (getSessionPath "/srv/whatsapp" "15550001111") st = true /\
  registerwhatsapp "/srv/whatsapp" sample_register st
  = (st, Replied (already_connected (JStr "15550001111") (JStr "7"))).
Proof.
  cbv zeta. split; [reflexivity | split; [vm_compute; reflexivity |]].
  apply (register_persisted_credentials "/srv/whatsapp" sample_register
           "15550001111").
  - reflexivity.
  - discriminate.
  - reflexivity.
  - vm_compute. reflexivity.
Defined.

Lemma qr_timeout_recreates_witness :
  let st := awaiting_qr "/srv/whatsapp" mebibyte_per_char "15550001111" in
  let st' := fire "/srv/whatsapp" 2 st in
  timers st !! 2%nat = Some (mkTimer 30000 (ActQrTimeout 1 "15550001111")) /\
  c_authInfo <$> heap st !! 1%nat = Some false /\
  c_destroyed <$> heap st' !! 1%nat = Some true /\
  clients st' !! "15550001111" = None /\
  qrTimers st' !! "15550001111" = None /\
  timers st' !! 3%nat
  = Some (mkTimer 60000 (ActCreateSession (JStr "15550001111") JNull)).
Proof.
  cbv zeta.
  pose proof (qr_timeout_recreates "/srv/whatsapp" 2 1 "15550001111" 30000
                (mkClient "15550001111" (JStr "7") (ResExpress 0)
                   FromCreateSession false false)
                (awaiting_qr "/srv/whatsapp" mebibyte_per_char "15550001111")
                eq_refl eq_refl eq_refl)
    as (Hheap & Hclients & Hqr & _ & _ & Htimer & _).
  split; [reflexivity | split; [reflexivity |]].
  split; [now rewrite Hheap |].
  split; [exact Hclients | split; [exact Hqr | exact Htimer]].
Defined.

Lemma oversized_media_forwarded_witness :
  let st' := handleMessageEvent "/srv/whatsapp" mebibyte_per_char
               sample_image "15550001111" (Downloaded sample_media) initial in
  16 * 1024 * 1024 < mebibyte_per_char (media_data sample_media) /\
  files st' = ∅ /\
  webhook_posts st'
  = [payload sample_image "15550001111" oversized_notice JNull].
Proof.
  cbv zeta.
  assert (Hbig : 16 * 1024 * 1024
                 < mebibyte_per_char (media_data sample_media))
    by (vm_compute; reflexivity).
  pose proof (oversized_media_forwarded "/srv/whatsapp" mebibyte_per_char
                sample_image "15550001111" sample_media initial
                eq_refl eq_refl eq_refl Hbig) as (Hfiles & Hposts & _).
  split; [exact Hbig | split; [exact Hfiles | exact Hposts]].
Defined.

Lemma fetchRegisteredPhones_exhausted_witness :
  attempt_body ((fun _ : nat => None) 1%nat) = None /\
  fetchRegisteredPhones (fun _ => None) 5 30000
  = Some (mkRun [] 5 [30000; 30000; 30000; 30000]) /\
  initializeRegisteredSessions "/srv/whatsapp" (fun _ => None)
    (fun _ => true) initial
  = upd_now (fun t => t + 4 * 30000) initial.
Proof.
  split; [reflexivity |].
  exact (fetchRegisteredPhones_exhausted "/srv/whatsapp" (fun _ => None) 5
           30000 (fun _ => true) initial (fun _ => eq_refl)).
Defined.

Lemma sendmsg_not_connected_witness :
  clients_get (Js.get "from" sample_send) initial = None /\
  snd (sendmsg sample_send (SendResolved None) "9f86d081884c7d65" initial)
  = client_not_connected /\
  timers (fst (sendmsg sample_send (SendResolved None) "9f86d081884c7d65"
                 initial))
  = {[ 0%nat := mkTimer 30000
                  (ActCreateSession (JStr "15550001111") JNull) ]}.
Proof.
  pose proof (sendmsg_not_connected "/srv/whatsapp" sample_send
                (SendResolved None) "9f86d081884c7d65" initial
                eq_refl eq_refl eq_refl eq_refl)
    as (Hreply & _ & _ & _ & _ & Htimers & _).
  split; [reflexivity | split; [exact Hreply | exact Htimers]].
Defined.

Lemma sessiondelete_idempotent_witness :
  clients initial !! Str.clean "+1 555 000 1111" = None /\
  existsSync (getSessionPath "/srv/whatsapp" (Str.clean "+1 555 000 1111"))
    initial = false /\
  existsSync (getCachePath "/srv/whatsapp" (Str.clean "+1 555 000 1111"))
    initial = false /\
  sessiondelete "/srv/whatsapp" "+1 555 000 1111" initial
  = (initial, deleted_reply "15550001111").
Proof.
  split; [reflexivity | split; [reflexivity | split; [reflexivity |]]].
  exact (proj1 (sessiondelete_idempotent "/srv/whatsapp" "+1 555 000 1111"
                  initial) eq_refl eq_refl eq_refl).
Defined.

(** C7, as stated without the required fields: a request whose [from] has no
    session but which carries no [message] is answered 400, and no
    re-creation is scheduled. *)
Lemma sendmsg_missing_field_counterexample :
  clients_get (Js.get "from" sample_send_no_message) initial = None /\
  code (snd (sendmsg sample_send_no_message (SendResolved None)
               "9f86d081884c7d65" initial)) = 400 /\
  code (snd (sendmsg sample_send_no_message (SendResolved None)
               "9f86d081884c7d65" initial)) ≠ 404 /\
  timers (fst (sendmsg sample_send_no_message (SendResolved None)
                 "9f86d081884c7d65" initial)) = ∅.
Proof.
  repeat split; try reflexivity. discriminate.
Qed.

(** * The logger *)

Section LoggerProperties.

Variable logDirectory : string.
Variable date_of : string -> option string.

Lemma printed_app (a b : list Logger.Line) :
  Logger.printed (a ++ b) = (Logger.printed a ++ Logger.printed b)%list.
Proof.
  induction a as [|[level text | level text] a IH]; cbn; [done | |];
    now rewrite ?IH.
Qed.

Lemma logToFile_keeps (e : Logger.Entry) (io : Logger.Io) (stamp : string)
    (st : Logger.State) :
  let st' := Logger.logToFile logDirectory date_of e io stamp st in
  Logger.printed (Logger.console st') = Logger.printed (Logger.console st) /\
  Logger.logQueue st' = Logger.logQueue st /\
  Logger.isProcessing st' = Logger.isProcessing st /\
  Logger.writing st' = Logger.writing st.
Proof.
  cbv zeta. unfold Logger.logToFile.
  destruct (Logger.getLogFilePath logDirectory date_of (Logger.e_timestamp e))
    as [filePath|]; cbn.
  - destruct (Logger.disk st !! filePath), io; cbn;
      rewrite ?printed_app, ?app_nil_r; done.
  - now rewrite printed_app, app_nil_r.
Qed.

Lemma loop_keeps (st : Logger.State) :
  (Logger.printed (Logger.console (Logger.loop st))
   ++ map Logger.shown (Logger.logQueue (Logger.loop st)))%list
  = (Logger.printed (Logger.console st)
     ++ map Logger.shown (Logger.logQueue st))%list.
Proof.
  unfold Logger.loop. destruct (Logger.logQueue st) as [|e rest]; cbn; [done |].
  rewrite printed_app, <- app_assoc. reflexivity.
Qed.

Lemma step_order (op : Logger.Op) (st : Logger.State) :
  let st' := Logger.step logDirectory date_of op st in
  (Logger.printed (Logger.console st')
   ++ map Logger.shown (Logger.logQueue st'))%list
  = (Logger.printed (Logger.console st)
     ++ map Logger.shown (Logger.logQueue st) ++ Logger.logged [op])%list.
Proof.
  cbv zeta. destruct op as [iso message level source | io stamp
                            | failure stamp | today failure stamp];
    cbn [Logger.step Logger.logged].
  - unfold Logger.log, Logger.processQueue. cbn.
    destruct (Logger.isProcessing st); cbn.
    + now rewrite map_app.
    + rewrite loop_keeps. cbn. now rewrite map_app.
  - rewrite app_nil_r. unfold Logger.file_done.
    destruct (Logger.writing st) as [e|]; [| done].
    rewrite loop_keeps. cbn.
    destruct (logToFile_keeps e io stamp st) as (-> & -> & _). done.
  - rewrite app_nil_r. unfold Logger.ensureLogDirectory.
    destruct failure; cbn; [| done]. now rewrite printed_app, app_nil_r.
  - rewrite app_nil_r. unfold Logger.ensureTodayLogFile.
    destruct (Logger.disk st !! _); [done |].
    destruct failure; cbn; now rewrite printed_app, app_nil_r.
Qed.

Lemma logged_cons (op : Logger.Op) (ops : list Logger.Op) :
  Logger.logged (op :: ops) = (Logger.logged [op] ++ Logger.logged ops)%list.
Proof. now destruct op. Qed.

Lemma run_order (ops : list Logger.Op) :
  forall st,
    (Logger.printed (Logger.console (Logger.run logDirectory date_of ops st))
     ++ map Logger.shown
          (Logger.logQueue (Logger.run logDirectory date_of ops st)))%list
    = (Logger.printed (Logger.console st)
       ++ map Logger.shown (Logger.logQueue st) ++ Logger.logged ops)%list.
Proof.
  induction ops as [|op ops IH]; intros st; cbn [Logger.run fold_left].
  - cbn. now rewrite app_nil_r.
  - fold (Logger.run logDirectory date_of ops
            (Logger.step logDirectory date_of op st)).
    rewrite IH, app_assoc, step_order, <- !app_assoc.
    now rewrite (logged_cons op ops).
Qed.

Lemma loop_inv (st : Logger.State) :
  Logger.writing st = None -> Logger.consistent (Logger.loop st).
Proof.
  intros Hw. unfold Logger.loop, Logger.consistent.
  destruct (Logger.logQueue st) as [|e rest]; cbn.
  - split; [split; [done | intros [? ?]; done] | done].
  - split; [split; eauto | done].
Qed.

Lemma step_inv (op : Logger.Op) (st : Logger.State) :
  Logger.consistent st ->
  Logger.consistent (Logger.step logDirectory date_of op st).
Proof.
  intros Hinv. pose proof Hinv as [Hbusy Hidle].
  destruct op as [iso message level source | io stamp
                  | failure stamp | today failure stamp]; cbn [Logger.step].
  - unfold Logger.log, Logger.processQueue. cbn.
    destruct (Logger.isProcessing st) eqn:Hp.
    + split; cbn; [| done].
      split; [intros _; now apply Hbusy | done].
    + apply loop_inv. cbn. destruct (Logger.writing st) eqn:Hw; [| done].
      assert (false = true) by (apply Hbusy; eauto). done.
  - unfold Logger.file_done.
    destruct (Logger.writing st) as [e|] eqn:Hw; [| exact Hinv].
    now apply loop_inv.
  - unfold Logger.ensureLogDirectory. destruct failure; exact Hinv.
  - unfold Logger.ensureTodayLogFile.
    destruct (Logger.disk st !! _); [exact Hinv |].
    destruct failure; exact Hinv.
Qed.

Lemma run_inv (ops : list Logger.Op) :
  forall st, Logger.consistent st ->
             Logger.consistent (Logger.run logDirectory date_of ops st).
Proof.
  induction ops as [|op ops IH]; intros st Hinv; [done |].
  cbn [Logger.run fold_left]. apply IH. now apply step_inv.
Qed.

Lemma create_inv (iso : string) (d : gmap string (list string)) :
  Logger.consistent (Logger.create iso d).
Proof. split; cbn; [split; eauto | done]. Qed.

(** X27. The logger prints in the order of logging and loses nothing.
    After any sequence of [log] calls and completions, the entries printed
    so far, followed by the entries still queued, are the first entry
    "Logger initialized" and then every entry logged, each once, in the
    order of the calls. *)
Theorem logger_order_preserved (iso : string)
    (d : gmap string (list string)) (ops : list Logger.Op) :
  let st := Logger.run logDirectory date_of ops (Logger.create iso d) in
  (Logger.printed (Logger.console st)
   ++ map Logger.shown (Logger.logQueue st))%list
  = ("INFO", Logger.logEntry (Logger.timestamp_of iso) "INFO"
               "Logger initialized" "Logger")
    :: Logger.logged ops.
Proof. cbv zeta. rewrite run_order. reflexivity. Qed.

(** X28. No entry is left behind. After any sequence of [log] calls and
    completions the worker is busy exactly while a write is awaited; and
    whenever it is idle the queue is empty and every entry logged so far
    has been printed. *)
Theorem logger_idle_means_drained (iso : string)
    (d : gmap string (list string)) (ops : list Logger.Op) :
  let st := Logger.run logDirectory date_of ops (Logger.create iso d) in
  (Logger.isProcessing st = true <-> is_Some (Logger.writing st)) /\
  (Logger.isProcessing st = false ->
   Logger.logQueue st = [] /\
   Logger.printed (Logger.console st)
   = ("INFO", Logger.logEntry (Logger.timestamp_of iso) "INFO"
                "Logger initialized" "Logger")
     :: Logger.logged ops).
Proof.
  cbv zeta.
  destruct (run_inv ops (Logger.create iso d) (create_inv iso d))
    as [Hbusy Hidle].
  split; [exact Hbusy |]. intros Hp. split; [now apply Hidle |].
  pose proof (run_order ops (Logger.create iso d)) as Horder.
  rewrite (Hidle Hp) in Horder. cbn [map] in Horder.
  rewrite app_nil_r in Horder. exact Horder.
Qed.

End LoggerProperties.

Lemma replace_first_char (a : ascii) (rep d rest : string) :
  ~ In a (list_ascii_of_string d) ->
  Str.replace_first (String a "") rep (d +:+ String a rest)
  = d +:+ rep +:+ rest.
Proof.
  induction d as [|b d IH]; intros Hno.
  - change ("" +:+ String a rest) with (String a rest).
    cbn [Str.replace_first String.prefix].
    destruct (ascii_dec a a) as [_ | Hne]; [| done].
    now destruct rest.
  - rewrite !append_cons. cbn [Str.replace_first String.prefix].
    destruct (ascii_dec a b) as [-> | Hne].
    + exfalso. apply Hno. now left.
    + f_equal. apply IH. intros Hin. apply Hno. now right.
Qed.

Lemma from_line_end_none (f : string) :
  (forall c, In c (list_ascii_of_string f) -> Logger.is_line_end c = false) ->
  Logger.from_line_end f = "".
Proof.
  induction f as [|b f IH]; intros Hno; [done |].
  cbn [Logger.from_line_end]. rewrite (Hno b) by now left.
  apply IH. intros c Hc. apply Hno. now right.
Qed.

Lemma strip_fraction_dot (s f : string) :
  ~ In "."%char (list_ascii_of_string s) ->
  f ≠ "" ->
  (forall c, In c (list_ascii_of_string f) -> Logger.is_line_end c = false) ->
  Logger.strip_fraction (s +:+ String "." f) = s.
Proof.
  intros Hs Hf Hno. induction s as [|a s IH].
  - change ("" +:+ String "." f) with (String "." f).
    cbn [Logger.strip_fraction]. rewrite Ascii.eqb_refl.
    destruct f as [|b f]; [done |].
    rewrite (Hno b) by now left. now apply from_line_end_none.
  - rewrite append_cons. cbn [Logger.strip_fraction].
    destruct (Ascii.eqb_spec a ".") as [-> | Hne].
    + exfalso. apply Hs. now left.
    + f_equal. apply IH. intros Hin. apply Hs. now right.
Qed.

(** X29. The text of a log entry. For a clock reading [dTt.f] (a date [d]
    without [T] or dot, a time [t] without dot, a non-empty fraction [f] on
    the same line), the entry is stamped [d t] and reads
    [[d t] [level] message (Source: source)]. *)
Theorem logger_entry_text (d t f message level source : string) :
  ~ In "T"%char (list_ascii_of_string d) ->
  ~ In "."%char (list_ascii_of_string d) ->
  ~ In "."%char (list_ascii_of_string t) ->
  f ≠ "" ->
  (forall c, In c (list_ascii_of_string f) -> Logger.is_line_end c = false) ->
  Logger.timestamp_of (d +:+ "T" +:+ t +:+ "." +:+ f) = d +:+ " " +:+ t /\
  Logger.logged [Logger.Log (d +:+ "T" +:+ t +:+ "." +:+ f) message level
                   source]
  = [(level, "[" +:+ d +:+ " " +:+ t +:+ "] [" +:+ level +:+ "] " +:+
             message +:+ " (Source: " +:+ source +:+ ")")].
Proof.
  intros HT Hd Ht Hf Hline.
  assert (Hts : Logger.timestamp_of (d +:+ "T" +:+ t +:+ "." +:+ f)
                = d +:+ " " +:+ t).
  { unfold Logger.timestamp_of.
    change (d +:+ "T" +:+ t +:+ "." +:+ f)
      with (d +:+ String "T" (t +:+ String "." f)).
    rewrite (replace_first_char "T" " " d _ HT).
    change (d +:+ " " +:+ t +:+ String "." f)
      with (d +:+ String " " (t +:+ String "." f)).
    assert (E : d +:+ String " " (t +:+ String "." f)
                = (d +:+ " " +:+ t) +:+ String "." f).
    { now rewrite append_assoc. }
    rewrite E. apply strip_fraction_dot; [| done | done].
    rewrite chars_append. intros Hin. apply in_app_or in Hin as [Hin | Hin];
      [now apply Hd |].
    change (" " +:+ t) with (String " " t) in Hin.
    cbn [list_ascii_of_string In] in Hin. destruct Hin as [Hin | Hin];
      [discriminate | now apply Ht]. }
  split; [exact Hts |].
  cbn [Logger.logged]. rewrite Hts. unfold Logger.logEntry.
  now rewrite !append_assoc.
Qed.

(** * The further properties at sample inputs *)

Lemma sessiondelete_other_phones_witness :
  "15550002222" ≠ Str.clean "+1 555 000 1111" /\
  clients (fst (sessiondelete "/srv/whatsapp" "+1 555 000 1111"
                  (with_credentials "/srv/whatsapp" "15550002222")))
    !! "15550002222" = None /\
  existsSync (getSessionPath "/srv/whatsapp" "15550002222")
    (fst (sessiondelete "/srv/whatsapp" "+1 555 000 1111"
            (with_credentials "/srv/whatsapp" "15550002222")))
  = true.
Proof.
  assert (H1 : "15550002222" ≠ Str.clean "+1 555 000 1111")
    by (vm_compute; discriminate).
  assert (H2 : Str.clean "15550002222" ≠ Str.clean "+1 555 000 1111")
    by (vm_compute; discriminate).
  destruct (sessiondelete_other_phones "/srv/whatsapp" "+1 555 000 1111"
              "15550002222" "15550002222"
              (with_credentials "/srv/whatsapp" "15550002222") H1 H2)
    as (Hc & _ & Hs & _).
  split; [exact H1 | split].
  - rewrite Hc. reflexivity.
  - rewrite Hs. vm_compute. reflexivity.
Defined.

Lemma sessiondelete_then_register_witness :
  Str.clean "+1 555 000 1111" ≠ "" /\
  snd (registerwhatsapp "/srv/whatsapp" sample_register
         (fst (sessiondelete "/srv/whatsapp" "+1 555 000 1111"
                 (with_credentials "/srv/whatsapp" "15550001111"))))
  = Pending 0.
Proof.
  assert (H1 : Str.clean "+1 555 000 1111" ≠ "")
    by (vm_compute; discriminate).
  assert (H3 : getSessionPath "/srv/whatsapp" (Str.clean "+1 555 000 1111")
               ∉ undeletable (with_credentials "/srv/whatsapp" "15550001111"))
    by (cbn; apply not_elem_of_empty).
  split; [exact H1 |].
  exact (proj1 (proj2 (sessiondelete_then_register "/srv/whatsapp"
                         "+1 555 000 1111" sample_register
                         (with_credentials "/srv/whatsapp" "15550001111")
                         H1 eq_refl H3))).
Defined.

Lemma authenticated_cancels_qr_timeout_witness :
  heap (fst (registerwhatsapp "/srv/whatsapp" sample_register initial))
    !! 1%nat
  = Some (mkClient "15550001111" (JStr "7") (ResExpress 0) FromCreateSession
            false false) /\
  fire "/srv/whatsapp" 2
    (emit "/srv/whatsapp" mebibyte_per_char 1 EvAuthenticated
       (awaiting_qr "/srv/whatsapp" mebibyte_per_char "15550001111"))
  = emit "/srv/whatsapp" mebibyte_per_char 1 EvAuthenticated
      (awaiting_qr "/srv/whatsapp" mebibyte_per_char "15550001111").
Proof.
  split; [reflexivity |].
  exact (proj2 (proj2 (proj2
           (authenticated_cancels_qr_timeout "/srv/whatsapp"
              mebibyte_per_char 1 0 "15550001111"
              "data:image/png;base64,iVBORw0KGgo=" (JStr "7") false false
              (fst (registerwhatsapp "/srv/whatsapp" sample_register initial))
              eq_refl eq_refl)))).
Defined.

Lemma auth_failure_outcomes_witness :
  heap (sample_resumed "/srv/whatsapp") !! 0%nat
  = Some (mkClient "15550001111" (JStr "7") ResDefault FromInitializeClient
            false false) /\
  emit "/srv/whatsapp" mebibyte_per_char 0 EvAuthFailure
    (sample_resumed "/srv/whatsapp")
  = sample_resumed "/srv/whatsapp".
Proof.
  split; [reflexivity |].
  exact (proj1 (auth_failure_outcomes "/srv/whatsapp" mebibyte_per_char 0
                  (mkClient "15550001111" (JStr "7") ResDefault
                     FromInitializeClient false false)
                  (sample_resumed "/srv/whatsapp") eq_refl) eq_refl).
Defined.

Lemma disconnect_then_resume_witness :
  heap (sample_resumed "/srv/whatsapp") !! 0%nat
  = Some (mkClient "15550001111" (JStr "7") ResDefault FromInitializeClient
            false false) /\
  existsSync (getSessionPath "/srv/whatsapp" "15550001111")
    (sample_resumed "/srv/whatsapp") = true /\
  clients (emit "/srv/whatsapp" mebibyte_per_char 0 EvDisconnected
             (sample_resumed "/srv/whatsapp")) !! "15550001111" = None /\
  clients (fire "/srv/whatsapp" 1
             (emit "/srv/whatsapp" mebibyte_per_char 0 EvDisconnected
                (sample_resumed "/srv/whatsapp"))) !! "15550001111"
  = Some 2%nat.
Proof.
  assert (Hdir : existsSync (getSessionPath "/srv/whatsapp" "15550001111")
                   (sample_resumed "/srv/whatsapp") = true)
    by (vm_compute; reflexivity).
  destruct (disconnect_then_resume "/srv/whatsapp" mebibyte_per_char 0
              (mkClient "15550001111" (JStr "7") ResDefault
                 FromInitializeClient false false)
              (sample_resumed "/srv/whatsapp") eq_refl)
    as (Hgone & _ & Hback & _).
  split; [reflexivity | split; [exact Hdir | split; [exact Hgone |]]].
  exact (proj1 (Hback Hdir)).
Defined.


Lemma response_sent_once_witness :
  code <$> responses
             (awaiting_qr "/srv/whatsapp" mebibyte_per_char "15550001111")
             !! 0%nat = Some 200 /\
  code <$> responses
             (emit "/srv/whatsapp" mebibyte_per_char 1 (EvReady NotifyOk)
                (awaiting_qr "/srv/whatsapp" mebibyte_per_char "15550001111"))
             !! 0%nat = Some 200.
Proof.
  split; [reflexivity |].
  rewrite (proj1 (response_sent_once "/srv/whatsapp" mebibyte_per_char 0
                    (mkResponse 200 (Js.object
                       [("status", JStr "qr");
                        ("qr", JStr "data:image/png;base64,iVBORw0KGgo=");
                        ("phone", JStr "15550001111")]))
                    (awaiting_qr "/srv/whatsapp" mebibyte_per_char
                       "15550001111") eq_refl) 1%nat (EvReady NotifyOk)).
  reflexivity.
Defined.

Lemma fetchRegisteredPhones_first_success_witness :
  attempt_body (third_time_lucky 1) = None /\
  attempt_body (third_time_lucky 2) = None /\
  fetchRegisteredPhones third_time_lucky 5 30000
  = Some (mkRun [Js.object [("phoneNumber", JStr "15550001111");
                            ("lineId", JStr "7")]] 3 [30000; 30000]).
Proof.
  split; [reflexivity | split; [reflexivity |]].
  apply (fetchRegisteredPhones_first_success third_time_lucky 5 30000 3).
  - lia.
  - intros j Hj. assert (Hcase : j = 1%nat \/ j = 2%nat) by lia.
    destruct Hcase as [-> | ->]; reflexivity.
  - reflexivity.
Defined.

Lemma bootstrap_needs_credentials_witness :
  clients (initializeRegisteredSessions "/srv/whatsapp" third_time_lucky
             (fun _ => true) (with_credentials "/srv/whatsapp" "15550001111"))
    !! "15550001111" = Some 0%nat /\
  (clients (with_credentials "/srv/whatsapp" "15550001111") !! "15550001111"
   = Some 0%nat \/
   existsSync (getSessionPath "/srv/whatsapp" "15550001111")
     (with_credentials "/srv/whatsapp" "15550001111") = true).
Proof.
  assert (H : clients (initializeRegisteredSessions "/srv/whatsapp"
                         third_time_lucky (fun _ => true)
                         (with_credentials "/srv/whatsapp" "15550001111"))
                !! "15550001111" = Some 0%nat)
    by (vm_compute; reflexivity).
  split; [exact H |].
  exact (bootstrap_needs_credentials "/srv/whatsapp" third_time_lucky
           (fun _ => true) (with_credentials "/srv/whatsapp" "15550001111")
           "15550001111" 0 H).
Defined.

Lemma bootstrap_stops_at_malformed_witness :
  clients (bootstrap_loop "/srv/whatsapp"
             ([Js.object [("phoneNumber", JStr "15550001111")]] ++
              JNull :: [Js.object [("phoneNumber", JStr "15550002222")]])%list
             (fun _ => true) (with_credentials "/srv/whatsapp" "15550002222"))
    !! "15550002222" = None.
Proof.
  rewrite (bootstrap_stops_at_malformed "/srv/whatsapp"
             [Js.object [("phoneNumber", JStr "15550001111")]]
             [Js.object [("phoneNumber", JStr "15550002222")]] JNull
             (fun _ => true) (with_credentials "/srv/whatsapp" "15550002222")).
  - vm_compute. reflexivity.
  - constructor; [now exists "15550001111" | constructor].
  - intros p. discriminate.
Defined.

Lemma sender_reported_bare_witness :
  Str.replace_first "@c.us" "" ("380501112233" +:+ "@c.us") = "380501112233".
Proof.
  apply (sender_reported_bare "380501112233").
  cbn. intros H. repeat (destruct H as [H | H]; [discriminate |]). exact H.
Defined.


Lemma media_missing_fallback_witness :
  webhook_posts (handleMessageEvent "/srv/whatsapp" mebibyte_per_char
                   sample_image "15550001111" NoMedia initial)
  = [payload sample_image "15550001111" "image (не вдалося завантажити)"
       JNull].
Proof.
  exact (proj1 (media_missing_fallback "/srv/whatsapp" mebibyte_per_char
                  sample_image "15550001111" initial
                  eq_refl eq_refl eq_refl)).
Defined.

Lemma sendmsg_text_witness :
  clients_get (Js.get "from" sample_send)
    (awaiting_qr "/srv/whatsapp" mebibyte_per_char "15550001111")
  = Some 1%nat /\
  outbound (fst (sendmsg sample_send (SendResolved None) "9f86d081884c7d65"
                   (awaiting_qr "/srv/whatsapp" mebibyte_per_char
                      "15550001111")))
  = [mkOutbound 1 "380501112233@c.us" (Text (JStr "hello"))].
Proof.
  split; [reflexivity |].
  exact (proj1 (sendmsg_text sample_send (SendResolved None)
                  "9f86d081884c7d65" "380501112233" 1
                  (awaiting_qr "/srv/whatsapp" mebibyte_per_char
                     "15550001111")
                  eq_refl eq_refl ltac:(discriminate) eq_refl eq_refl
                  eq_refl)).
Defined.

Lemma sendmsg_media_witness :
  Js.get "contentType" sample_send_media = JStr "image" /\
  outbound (fst (sendmsg sample_send_media (SendResolved None)
                   "9f86d081884c7d65"
                   (with_outgoing_file
                      (awaiting_qr "/srv/whatsapp" mebibyte_per_char
                         "15550001111"))))
  = [mkOutbound 1 "380501112233@c.us"
       (Media (JStr "image") "/9j/4AAQ" "/srv/out/cat.jpg" (JStr "look"))].
Proof.
  split; [reflexivity |].
  apply (proj1 (sendmsg_media sample_send_media (SendResolved None)
                  "9f86d081884c7d65" "380501112233" "image" 1
                  (with_outgoing_file
                     (awaiting_qr "/srv/whatsapp" mebibyte_per_char
                        "15550001111"))
                  eq_refl eq_refl ltac:(discriminate) eq_refl eq_refl
                  eq_refl ltac:(discriminate))
               "/srv/out/cat.jpg" "/9j/4AAQ").
  - reflexivity.
  - discriminate.
  - reflexivity.
Defined.

Lemma createSession_replaces_without_destroying_witness :
  clients (awaiting_qr "/srv/whatsapp" mebibyte_per_char "15550001111")
    !! "15550001111" = Some 1%nat /\
  clients (createSession (JStr "15550001111") JNull ResHeadersSent
             (awaiting_qr "/srv/whatsapp" mebibyte_per_char "15550001111"))
    !! "15550001111" = Some 3%nat /\
  c_destroyed <$>
    heap (createSession (JStr "15550001111") JNull ResHeadersSent
            (awaiting_qr "/srv/whatsapp" mebibyte_per_char "15550001111"))
      !! 1%nat = Some false.
Proof.
  destruct (createSession_replaces_without_destroying "15550001111" JNull
              ResHeadersSent 1
              (mkClient "15550001111" (JStr "7") (ResExpress 0)
                 FromCreateSession false false)
              (awaiting_qr "/srv/whatsapp" mebibyte_per_char "15550001111")
              eq_refl eq_refl ltac:(vm_compute; discriminate))
    as (Hnew & _ & Hold).
  split; [reflexivity | split; [exact Hnew |]].
  now rewrite Hold.
Defined.

Lemma initialize_rejected_retries_witness :
  c_origin <$>
    heap (fst (registerwhatsapp "/srv/whatsapp" sample_register initial))
      !! 1%nat = Some FromCreateSession /\
  clients (fire "/srv/whatsapp" 2
             (emit "/srv/whatsapp" mebibyte_per_char 1 EvInitializeRejected
                (fst (registerwhatsapp "/srv/whatsapp" sample_register
                        initial)))) !! "15550001111" = Some 3%nat.
Proof.
  split; [reflexivity |].
  exact (proj1 (proj2 (proj2
           (initialize_rejected_retries "/srv/whatsapp" mebibyte_per_char 1
              (mkClient "15550001111" (JStr "7") (ResExpress 0)
                 FromCreateSession false false)
              (fst (registerwhatsapp "/srv/whatsapp" sample_register initial))
              eq_refl eq_refl)))).
Defined.

Lemma logger_entry_text_witness :
  Logger.timestamp_of "2024-05-06T07:08:09.123Z" = "2024-05-06 07:08:09" /\
  Logger.logged [Logger.Log "2024-05-06T07:08:09.123Z" "Server started"
                   "INFO" "index"]
  = [("INFO",
      "[2024-05-06 07:08:09] [INFO] Server started (Source: index)")].
Proof.
  apply (logger_entry_text "2024-05-06" "07:08:09" "123Z" "Server started"
           "INFO" "index").
  - cbn. intros H. repeat (destruct H as [H | H]; [discriminate |]). exact H.
  - cbn. intros H. repeat (destruct H as [H | H]; [discriminate |]). exact H.
  - cbn. intros H. repeat (destruct H as [H | H]; [discriminate |]). exact H.
  - discriminate.
  - intros c Hc. cbn in Hc.
    repeat (destruct Hc as [<- | Hc]; [reflexivity |]). destruct Hc.
Defined.
